(** * lumbermixalot: rig conversion helpers, embedded and verified

    A shallow embedding of [commonmixalot.py] and [mainmixalot.py].

    The Python code runs inside a host (Blender's [bpy]) and on top of the
    Python runtime ([str], [os.path], [os], [json]).  The file is organised
    as follows:

    - [PyStr], [PosixPath]: the runtime's string and path functions, written
      after CPython's [posixpath]/[genericpath] (POSIX flavour, a character
      being a code point below 256);
    - [World], [Res], [M]: the mutable state the code touches (file system,
      armature, images, interaction mode, console) and a state-and-exception
      monad over it;
    - [Gen]: generators ([yield]) as resumptions, with [drive] pulling a
      generator to exhaustion;
    - [Common], [Main]: the functions of the two modules, in source order;
    - the theorems. *)

From Stdlib Require Import ZArith QArith Ascii String List Lia.
From stdpp Require Import base gmap strings list fin_maps pretty.

Local Open Scope Z_scope.

(** ** Python [str] methods used by the code *)
Module PyStr.

(** [s.rfind(c)] for a one-character [c]: highest index, or [-1]. *)
Fixpoint rfind_from (c : ascii) (s : string) (i acc : Z) : Z :=
  match s with
  | EmptyString => acc
  | String a s' => rfind_from c s' (i + 1) (if Ascii.eqb a c then i else acc)
  end.

Definition rfind (c : ascii) (s : string) : Z := rfind_from c s 0 (-1).

(** [s[:n]] and [s[n:]] for a non-negative [n]. *)
Fixpoint take (n : nat) (s : string) : string :=
  match n, s with
  | O, _ => EmptyString
  | S _, EmptyString => EmptyString
  | S k, String a s' => String a (take k s')
  end.

Fixpoint drop (n : nat) (s : string) : string :=
  match n, s with
  | O, _ => s
  | S _, EmptyString => EmptyString
  | S k, String _ s' => drop k s'
  end.

Definition slice_to (s : string) (n : Z) : string := take (Z.to_nat n) s.
Definition slice_from (s : string) (n : Z) : string := drop (Z.to_nat n) s.

(** [s[i:i+1]] *)
Definition char_at (s : string) (i : nat) : string := take 1 (drop i s).

Definition startswith (s pre : string) : bool := String.prefix pre s.

Fixpoint endswith_char (s : string) (c : ascii) : bool :=
  match s with
  | EmptyString => false
  | String a EmptyString => Ascii.eqb a c
  | String _ s' => endswith_char s' c
  end.

(** [s.split(c)]: never returns the empty list. *)
Fixpoint split (c : ascii) (s : string) : list string :=
  match s with
  | EmptyString => [EmptyString]
  | String a s' =>
      if Ascii.eqb a c then EmptyString :: split c s'
      else match split c s' with
           | [] => [String a EmptyString]
           | w :: ws => String a w :: ws
           end
  end.

(** [sep.join(l)] *)
Fixpoint join (sep : string) (l : list string) : string :=
  match l with
  | [] => EmptyString
  | [x] => x
  | x :: rest => x +:+ sep +:+ join sep rest
  end.

(** Characters [str.strip()] removes, among the code points below 256:
    TAB, LF, VT, FF, CR, FS, GS, RS, US, SPACE, NEL and NBSP. *)
Definition isspace (a : ascii) : bool :=
  let n := nat_of_ascii a in
  ((9 <=? n)%nat && (n <=? 13)%nat) || ((28 <=? n)%nat && (n <=? 32)%nat)
  || (n =? 133)%nat || (n =? 160)%nat.

Fixpoint lstrip (s : string) : string :=
  match s with
  | EmptyString => EmptyString
  | String a s' => if isspace a then lstrip s' else s
  end.

Fixpoint rstrip (s : string) : string :=
  match s with
  | EmptyString => EmptyString
  | String a s' =>
      match rstrip s' with
      | EmptyString => if isspace a then EmptyString else String a EmptyString
      | r => String a r
      end
  end.

Definition strip (s : string) : string := rstrip (lstrip s).

Fixpoint all_space (s : string) : bool :=
  match s with
  | EmptyString => true
  | String a s' => isspace a && all_space s'
  end.

(** [str(b)] for a [bool]. *)
Definition str_of_bool (b : bool) : string := if b then "True" else "False".

(** [str(n)] for an [int]. *)
Definition str_of_int (n : Z) : string := pretty n.

End PyStr.

(** ** [os.path] on POSIX, after CPython's [posixpath] and [genericpath] *)
Module PosixPath.
Import PyStr.

Definition sep : ascii := "/"%char.
Definition extsep : ascii := "."%char.

(** The [while filenameIndex < dotIndex] loop of [genericpath._splitext]:
    [true] as soon as a character that is not a dot is met. *)
Fixpoint splitext_scan (p : string) (filenameIndex todo : nat) : bool :=
  match todo with
  | O => false
  | S k =>
      if negb (String.eqb (char_at p filenameIndex) (String extsep EmptyString))
      then true
      else splitext_scan p (S filenameIndex) k
  end.

Definition splitext (p : string) : string * string :=
  let sepIndex := rfind sep p in
  let dotIndex := rfind extsep p in
  if (dotIndex >? sepIndex)
  then
    let filenameIndex := sepIndex + 1 in
    if splitext_scan p (Z.to_nat filenameIndex) (Z.to_nat (dotIndex - filenameIndex))
    then (slice_to p dotIndex, slice_from p dotIndex)
    else (p, EmptyString)
  else (p, EmptyString).

Definition basename (p : string) : string :=
  let i := rfind sep p + 1 in
  slice_from p i.

(** [os.path.join(a, b)] with one extra component. *)
Definition join (a b : string) : string :=
  if startswith b (String sep EmptyString) then b
  else if String.eqb a EmptyString || endswith_char a sep then a +:+ b
  else a +:+ String sep EmptyString +:+ b.

(** The component loop of [normpath]; [new_comps] is kept reversed. *)
Fixpoint normpath_loop (initial_slashes : nat) (comps new_comps : list string)
  : list string :=
  match comps with
  | [] => rev new_comps
  | comp :: rest =>
      if String.eqb comp "" || String.eqb comp "." then
        normpath_loop initial_slashes rest new_comps
      else if negb (String.eqb comp "..")
              || (Nat.eqb initial_slashes 0 && match new_comps with [] => true | _ => false end)
              || match new_comps with
                 | last :: _ => String.eqb last ".."
                 | [] => false
                 end
      then normpath_loop initial_slashes rest (comp :: new_comps)
      else match new_comps with
           | _ :: popped => normpath_loop initial_slashes rest popped
           | [] => normpath_loop initial_slashes rest new_comps
           end
  end.

Fixpoint repeat_sep (n : nat) : string :=
  match n with
  | O => EmptyString
  | S k => String sep (repeat_sep k)
  end.

Definition normpath (path : string) : string :=
  if String.eqb path "" then "."
  else
    let initial_slashes :=
      if startswith path "/" then
        if startswith path "//" && negb (startswith path "///") then 2%nat else 1%nat
      else 0%nat in
    let comps := split sep path in
    let new_comps := normpath_loop initial_slashes comps [] in
    let path' := PyStr.join "/" new_comps in
    let path'' := repeat_sep initial_slashes +:+ path' in
    if String.eqb path'' "" then "." else path''.

End PosixPath.

(** ** Exceptions and results *)

Inductive PyExc : Type :=
| NameError (name : string)
| IndexError
| KeyError (key : string)
| ZeroDivisionError
| OSError (path : string)
| RuntimeError (what : string)
| JSONDecodeError
| Exception_ (msg : string).

Inductive Res (A : Type) : Type :=
| Ok (a : A)
| Raise (e : PyExc).
Arguments Ok {A} a.
Arguments Raise {A} e.

(** ** The world the code runs in

    One armature object is in the scene and active; the parameters [obj]
    and [armatureObj] of the Python functions are handles to it, so the
    functions below read and write it in the world instead of taking it as
    an argument.  Numbers that are floats in Python are rationals here. *)

(** File system: what [os.path.exists] sees, what a JSON file holds, and
    the paths at which the file system refuses to create or write anything
    (missing permission, a dangling link or a directory in the way, ...).
    Paths are compared as text. *)
Inductive Node : Type :=
| Dir
| JsonFile (obj : gmap string string)
| DataFile.

Record FS : Type := mkFS {
  nodes : gmap string Node;
  refused : gset string
}.

(** Host scene data.  Bones refer to their parent by name (the host keeps
    bone names unique inside an armature). *)
Inductive Mode : Type := OBJECT | EDIT | POSE.

Definition Vec3 : Type := (Q * Q * Q)%type.

Record Bone : Type := mkBone {
  bone_name : string;
  bone_parent : option string;
  bone_tail : Vec3
}.

Record Child : Type := mkChild {
  child_name : string;
  child_type : string
}.

(** An armature object: [obj.scale], [obj.children], [obj.data.bones] and
    [obj.data.edit_bones]. *)
Record Armature : Type := mkArmature {
  scale : Vec3;
  children : list Child;
  bones : list Bone;
  edit_bones : list Bone
}.

(** An image of [bpy.data.images]: [image.name], [image.has_data] (its
    pixels are in memory), [image.filepath], [image.filepath_raw], and
    whether [image.packed_file] is there (the pixels are stored with the
    document, as those of the textures an FBX file embeds). *)
Record Image : Type := mkImage {
  image_name : string;
  has_data : bool;
  filepath : string;
  filepath_raw : string;
  packed_file : bool
}.

(** Calls into the host that leave the Python side. *)
Inductive HostCall : Type :=
| ExportSceneFbx (filepath : string) (path_mode_copy : bool)
| ImageSave (name path : string).

Record World : Type := mkWorld {
  w_mode : Mode;
  w_fs : FS;
  w_arm : Armature;
  w_images : list Image;
  w_stdout : list string;
  w_calls : list HostCall
}.

Definition set_mode (m : Mode) (w : World) : World :=
  mkWorld m (w_fs w) (w_arm w) (w_images w) (w_stdout w) (w_calls w).
Definition set_fs (fs : FS) (w : World) : World :=
  mkWorld (w_mode w) fs (w_arm w) (w_images w) (w_stdout w) (w_calls w).
Definition set_arm (a : Armature) (w : World) : World :=
  mkWorld (w_mode w) (w_fs w) a (w_images w) (w_stdout w) (w_calls w).
Definition set_images (l : list Image) (w : World) : World :=
  mkWorld (w_mode w) (w_fs w) (w_arm w) l (w_stdout w) (w_calls w).
Definition set_stdout (l : list string) (w : World) : World :=
  mkWorld (w_mode w) (w_fs w) (w_arm w) (w_images w) l (w_calls w).
Definition set_calls (l : list HostCall) (w : World) : World :=
  mkWorld (w_mode w) (w_fs w) (w_arm w) (w_images w) (w_stdout w) l.

Definition set_bones (l : list Bone) (a : Armature) : Armature :=
  mkArmature (scale a) (children a) l (edit_bones a).
Definition set_edit_bones (l : list Bone) (a : Armature) : Armature :=
  mkArmature (scale a) (children a) (bones a) l.

(** ** State and exceptions: a Python statement is an [M unit] *)

Definition M (A : Type) : Type := World -> Res A * World.

Definition ret {A} (a : A) : M A := fun w => (Ok a, w).
Definition raise {A} (e : PyExc) : M A := fun w => (Raise e, w).
Definition bind {A B} (m : M A) (k : A -> M B) : M B :=
  fun w => match m w with
           | (Ok a, w') => k a w'
           | (Raise e, w') => (Raise e, w')
           end.
Definition gets {A} (f : World -> A) : M A := fun w => (Ok (f w), w).
Definition modify (f : World -> World) : M unit := fun w => (Ok tt, f w).

(** [try: body  except: handler] with a bare [except]. *)
Definition try_except {A} (body handler : M A) : M A :=
  fun w => match body w with
           | (Ok a, w') => (Ok a, w')
           | (Raise _, w') => handler w'
           end.

Declare Scope py_scope.
Delimit Scope py_scope with py.
Notation "x <- m ;; k" := (bind m (fun x => k))
  (at level 100, m at next level, right associativity) : py_scope.
Notation "m ;;; k" := (bind m (fun _ => k))
  (at level 100, right associativity) : py_scope.
Local Open Scope py_scope.

(** [print(msg)] adds a line to the console. *)
Definition say (msg : string) (w : World) : World :=
  set_stdout (w_stdout w ++ [msg]) w.

Definition print (msg : string) : M unit := modify (say msg).

(** ** The runtime and host operations the code calls *)
Module Host.

(** [os.path.exists(p)] *)
Definition path_exists (p : string) : M bool :=
  gets (fun w => bool_decide (is_Some (nodes (w_fs w) !! p))).

(** [os.makedirs(p)]: raises when the path is there already or cannot be
    created.  Of the directories it makes, the last one is recorded. *)
Definition makedirs (p : string) : M unit :=
  fun w =>
    let fs := w_fs w in
    if bool_decide (p ∈ refused fs) || bool_decide (is_Some (nodes fs !! p))
    then (Raise (OSError p), w)
    else (Ok tt, set_fs (mkFS (<[p := Dir]> (nodes fs)) (refused fs)) w).

(** [with open(p) as f: return json.load(f)] *)
Definition open_json_load (p : string) : M (gmap string string) :=
  fun w =>
    match nodes (w_fs w) !! p with
    | Some (JsonFile obj) => (Ok obj, w)
    | Some DataFile => (Raise JSONDecodeError, w)
    | Some Dir | None => (Raise (OSError p), w)
    end.

(** [with open(p, 'w') as f: json.dump(data, f, indent=4)]: the file is
    truncated on opening, so its former content is gone. *)
Definition open_json_dump (p : string) (data : gmap string string) : M unit :=
  fun w =>
    let fs := w_fs w in
    if bool_decide (p ∈ refused fs) then (Raise (OSError p), w)
    else (Ok tt, set_fs (mkFS (<[p := JsonFile data]> (nodes fs)) (refused fs)) w).

(** Writing a data file (an exported scene, a saved image). *)
Definition write_data (p : string) (call : HostCall) : M unit :=
  fun w =>
    let fs := w_fs w in
    if bool_decide (p ∈ refused fs) then (Raise (RuntimeError p), w)
    else (Ok tt,
          set_calls (w_calls w ++ [call])
            (set_fs (mkFS (<[p := DataFile]> (nodes fs)) (refused fs)) w)).

(** [bpy.ops.export_scene.fbx(filepath=p, check_existing=False,
    axis_forward='Y', axis_up='Z'[, path_mode='COPY'])] *)
Definition export_scene_fbx (p : string) (path_mode_copy : bool) : M unit :=
  write_data p (ExportSceneFbx p path_mode_copy).

(** [bpy.ops.object.mode_set(mode=m)]: entering edit mode loads the edit
    bones from the armature's bones, leaving it writes them back.  The
    bones are written back here in the order of the edit bones; the host
    lists them parents first, each bone followed by its descendants, so
    after a change of parent the same bones may come in another order
    there.  The further properties below speak of the bones after such a
    change by name, or up to their order. *)
Definition mode_set (m : Mode) : M unit :=
  modify (fun w =>
    let a := w_arm w in
    match w_mode w, m with
    | EDIT, EDIT => w
    | _, EDIT => set_mode EDIT (set_arm (set_edit_bones (bones a) a) w)
    | EDIT, _ => set_mode m (set_arm (set_edit_bones [] (set_bones (edit_bones a) a)) w)
    | _, _ => set_mode m w
    end).

(** [ebones.new(name)]: a parentless bone is appended; the result is its
    position in the collection. *)
Definition edit_bones_new (name : string) : M nat :=
  fun w =>
    let a := w_arm w in
    (Ok (length (edit_bones a)),
     set_arm (set_edit_bones (edit_bones a ++ [mkBone name None (0, 0, 0)%Q]) a) w).

(** [collection.find(key)]: the index of the first element named [key],
    [-1] when there is none. *)
Fixpoint find_from (key : string) (l : list Bone) (i : Z) : Z :=
  match l with
  | [] => -1
  | b :: rest => if String.eqb (bone_name b) key then i else find_from key rest (i + 1)
  end.
Definition find (key : string) (l : list Bone) : Z := find_from key l 0.

(** [collection[i]] with an integer: a negative [i] counts from the end,
    as for a Python sequence; out of range raises [IndexError]. *)
Definition abs_index (l : list Bone) (i : Z) : option nat :=
  let n := Z.of_nat (length l) in
  let i' := if i <? 0 then i + n else i in
  if (0 <=? i') && (i' <? n) then Some (Z.to_nat i') else None.

Definition subscript (l : list Bone) (i : Z) : Res (nat * Bone) :=
  match abs_index l i with
  | Some k => match l !! k with
              | Some b => Ok (k, b)
              | None => Raise IndexError
              end
  | None => Raise IndexError
  end.

Definition by_name (l : list Bone) (name : string) : option Bone :=
  List.find (fun b => String.eqb (bone_name b) name) l.

(** Whether the bone named [anc] is [b] or one of its ancestors, following
    parent names for at most [fuel] steps. *)
Fixpoint is_self_or_ancestor (fuel : nat) (l : list Bone) (anc : string) (b : Bone) : bool :=
  String.eqb (bone_name b) anc ||
  match fuel, bone_parent b with
  | S k, Some p =>
      match by_name l p with
      | Some pb => is_self_or_ancestor k l anc pb
      | None => false
      end
  | _, _ => false
  end.

(** [ebones[c].parent = parent]: the host ignores an assignment that
    would make a bone its own ancestor. *)
Definition set_parent (c : nat) (child parent : Bone) : M unit :=
  modify (fun w =>
    let a := w_arm w in
    let l := edit_bones a in
    if is_self_or_ancestor (length l) l (bone_name child) parent then w
    else set_arm (set_edit_bones
           (<[c := mkBone (bone_name child) (Some (bone_name parent)) (bone_tail child)]> l) a) w).

(** [ebones[c].tail = v] *)
Definition set_tail (c : nat) (v : Vec3) : M unit :=
  modify (fun w =>
    let a := w_arm w in
    let l := edit_bones a in
    match l !! c with
    | Some b => set_arm (set_edit_bones (<[c := mkBone (bone_name b) (bone_parent b) v]> l) a) w
    | None => w
    end).

(** Attribute access on [bpy.data.images[i]]. *)
Definition image_get (i : nat) : M Image :=
  fun w => match w_images w !! i with
           | Some im => (Ok im, w)
           | None => (Raise IndexError, w)
           end.

(** [image.filepath = v]: the host takes the assignment as a request to
    load the image again from its new path and lets go of the pixels it
    holds in memory, so [has_data] is [False] afterwards; a packed file
    stays with the image. *)
Definition image_set_filepath (i : nat) (v : string) : M unit :=
  modify (fun w =>
    match w_images w !! i with
    | Some im =>
        set_images (<[i := mkImage (image_name im) false v (filepath_raw im)
                               (packed_file im)]> (w_images w)) w
    | None => w
    end).

(** [image.filepath_raw = v]: the text alone changes. *)
Definition image_set_filepath_raw (i : nat) (v : string) : M unit :=
  modify (fun w =>
    match w_images w !! i with
    | Some im =>
        set_images (<[i := mkImage (image_name im) (has_data im) (filepath im) v
                               (packed_file im)]> (w_images w)) w
    | None => w
    end).

(** A data file is at [p]. *)
Definition file_at (p : string) (w : World) : bool :=
  match nodes (w_fs w) !! p with
  | Some DataFile => true
  | _ => false
  end.

(** Whether the host gets hold of the pixels of an image when it is asked
    for them: they are in memory, or else they come from the packed file,
    or else from a data file at the path the image points at. *)
Definition pixels_found (im : Image) (w : World) : bool :=
  has_data im || packed_file im || file_at (filepath_raw im) w.

(** [image.save()]: the host fetches the pixels, which are in memory from
    then on, and writes them to the file the image points at; it raises
    when there are no pixels to be had, and when the file cannot be
    written. *)
Definition image_save (i : nat) : M unit :=
  im <- image_get i ;;
  found <- gets (pixels_found im) ;;
  if negb found then
    raise (RuntimeError ("Image '" +:+ image_name im +:+ "' does not have any image data"))
  else
    modify (fun w =>
      set_images (<[i := mkImage (image_name im) true (filepath im) (filepath_raw im)
                             (packed_file im)]> (w_images w)) w) ;;;
    write_data (filepath_raw im) (ImageSave (image_name im) (filepath_raw im)).

End Host.

(** ** Generators *)

(** [Status] of [commonmixalot]: what the generators yield. *)
Record Status : Type := mkStatus {
  msg : string;
  status_type : string
}.

(** A generator is a resumption: it returns, yields a value and goes on,
    or runs a statement and goes on with its result. *)
Inductive Gen (R : Type) : Type :=
| GRet (r : R)
| GYield (s : Status) (k : Gen R)
| GDo {A : Type} (m : M A) (k : A -> Gen R).
Arguments GRet {R} r.
Arguments GYield {R} s k.
Arguments GDo {R A} m k.

Fixpoint gbind {A B} (g : Gen A) (f : A -> Gen B) : Gen B :=
  match g with
  | GRet a => f a
  | GYield s k => GYield s (gbind k f)
  | GDo m k => GDo m (fun x => gbind (k x) f)
  end.

(** [for x in it: body(x)], the value [it] returns being dropped. *)
Fixpoint for_in {R} (it : Gen R) (body : Status -> Gen unit) : Gen unit :=
  match it with
  | GRet _ => GRet tt
  | GYield s k => gbind (body s) (fun _ => for_in k body)
  | GDo m k => GDo m (fun x => for_in (k x) body)
  end.

(** Exhausting a generator: the values yielded, how it ended, the world
    afterwards.  An exception ends it at once. *)
Fixpoint drive {R} (g : Gen R) (w : World) : list Status * Res R * World :=
  match g with
  | GRet r => ([], Ok r, w)
  | GYield s k => let '(ys, r, w') := drive k w in (s :: ys, r, w')
  | GDo m k => match m w with
               | (Ok a, w') => drive (k a) w'
               | (Raise e, w') => ([], Raise e, w')
               end
  end.

Definition lift {A} (m : M A) : Gen A := GDo m GRet.

(** Driving [g] and then what [f] makes of its result. *)
Definition prepend {B} (ys : list Status) (out : list Status * Res B * World)
  : list Status * Res B * World :=
  let '(ys', r, w'') := out in (ys ++ ys', r, w'').

Definition drive_then {A B} (f : A -> Gen B) (out : list Status * Res A * World)
  : list Status * Res B * World :=
  match out with
  | (ys, Ok a, w') => prepend ys (drive (f a) w')
  | (ys, Raise e, w') => (ys, Raise e, w')
  end.

(** ** commonmixalot.py *)
Module Common.
Import PyStr Host.

(** [Status(msg)]: the constructor prints the message. *)
Definition Status_init (msg : string) : M Status :=
  print msg ;;;
  ret (mkStatus msg "default").

(** [str(status)] *)
Definition Status_str (s : Status) : string := msg s.

(** The names Python's [builtins] module binds. *)
Definition builtins : list string :=
  ["ArithmeticError"; "AssertionError"; "AttributeError"; "BaseException";
   "BaseExceptionGroup"; "BlockingIOError"; "BrokenPipeError"; "BufferError";
   "BytesWarning"; "ChildProcessError"; "ConnectionAbortedError"; "ConnectionError";
   "ConnectionRefusedError"; "ConnectionResetError"; "DeprecationWarning"; "EOFError";
   "Ellipsis"; "EncodingWarning"; "EnvironmentError"; "Exception"; "ExceptionGroup";
   "False"; "FileExistsError"; "FileNotFoundError"; "FloatingPointError";
   "FutureWarning"; "GeneratorExit"; "IOError"; "ImportError"; "ImportWarning";
   "IndentationError"; "IndexError"; "InterruptedError"; "IsADirectoryError";
   "KeyError"; "KeyboardInterrupt"; "LookupError"; "MemoryError";
   "ModuleNotFoundError"; "NameError"; "None"; "NotADirectoryError"; "NotImplemented";
   "NotImplementedError"; "OSError"; "OverflowError"; "PendingDeprecationWarning";
   "PermissionError"; "ProcessLookupError"; "RecursionError"; "ReferenceError";
   "ResourceWarning"; "RuntimeError"; "RuntimeWarning"; "StopAsyncIteration";
   "StopIteration"; "SyntaxError"; "SyntaxWarning"; "SystemError"; "SystemExit";
   "TabError"; "TimeoutError"; "True"; "TypeError"; "UnboundLocalError";
   "UnicodeDecodeError"; "UnicodeEncodeError"; "UnicodeError";
   "UnicodeTranslateError"; "UnicodeWarning"; "UserWarning"; "ValueError"; "Warning";
   "ZeroDivisionError"; "__build_class__"; "__debug__"; "__doc__"; "__import__";
   "__loader__"; "__name__"; "__package__"; "__spec__"; "abs"; "aiter"; "all";
   "anext"; "any"; "ascii"; "bin"; "bool"; "breakpoint"; "bytearray"; "bytes";
   "callable"; "chr"; "classmethod"; "compile"; "complex"; "copyright"; "credits";
   "delattr"; "dict"; "dir"; "divmod"; "enumerate"; "eval"; "exec"; "exit"; "filter";
   "float"; "format"; "frozenset"; "getattr"; "globals"; "hasattr"; "hash"; "help";
   "hex"; "id"; "input"; "int"; "isinstance"; "issubclass"; "iter"; "len"; "license";
   "list"; "locals"; "map"; "max"; "memoryview"; "min"; "next"; "object"; "oct";
   "open"; "ord"; "pow"; "print"; "property"; "quit"; "range"; "repr"; "reversed";
   "round"; "set"; "setattr"; "slice"; "sorted"; "staticmethod"; "str"; "sum";
   "super"; "tuple"; "type"; "vars"; "zip"].

(** The names bound in the namespace of [commonmixalot] once the module
    is loaded: its imports (lines 24-28), what [from mathutils import *]
    brings in, and every [class] and [def] of the file. *)
Definition module_globals (mathutils_public : list string) : list string :=
  ["__name__"; "__doc__"; "__package__"; "__loader__"; "__spec__"; "__file__";
   "__cached__"; "__builtins__"; "os"; "json"; "bpy"]
  ++ mathutils_public ++
  ["Axis"; "Dump"; "Status"; "ApplyCurrentRotationAs000"; "GetRootBone";
   "HasOnlyOneRootBone"; "HasRootMotionBone"; "GetRestPoseMatrixFromPoseBone";
   "GetPoseBoneFromArmature"; "AddSiblingRootBone"; "MakeParentBone";
   "_ExportFbxInternal"; "_MakeFilePathForFBX"; "_CreateTexturesSubdir";
   "_UnpackTextures"; "ExportFBX"; "GetFirstAmature"; "_ClearCachedCollectionData";
   "_ClearOldAnimationData"; "_ClearOldTextureData"; "ImportFBX"; "FbxProperties";
   "GetFbxExportPropertiesObj"; "GetFbxExportProperty"; "StoreFbxExportProperty"].

(** What the [mathutils] module of the host exports. *)
Definition mathutils_names : list string :=
  ["Color"; "Euler"; "Matrix"; "Quaternion"; "Vector"; "bvhtree"; "geometry";
   "interpolate"; "kdtree"; "noise"].

(** Reading a global name inside a function: the module namespace, then
    the builtins, else [NameError].  The functions below go through it for
    the one name they read that no statement of the file binds; the names
    the file does bind resolve to the definitions of this module. *)
Definition load_global (G : list string) (name : string) : M unit :=
  if bool_decide (name ∈ G) || bool_decide (name ∈ builtins)
  then ret tt
  else raise (NameError name).

Fixpoint GetRootBone_loop (l : list Bone) : option Bone :=
  match l with
  | [] => None
  | bone :: rest =>
      match bone_parent bone with
      | None => Some bone
      | Some _ => GetRootBone_loop rest
      end
  end.

Definition GetRootBone (obj : Armature) : option Bone :=
  GetRootBone_loop (bones obj).

Fixpoint HasOnlyOneRootBone_loop (l : list Bone) (rootBoneCount : nat) : nat :=
  match l with
  | [] => rootBoneCount
  | bone :: rest =>
      match bone_parent bone with
      | None => HasOnlyOneRootBone_loop rest (rootBoneCount + 1)%nat
      | Some _ => HasOnlyOneRootBone_loop rest rootBoneCount
      end
  end.

Definition HasOnlyOneRootBone (obj : Armature) : bool :=
  let rootBoneCount := HasOnlyOneRootBone_loop (bones obj) 0%nat in
  Nat.eqb rootBoneCount 1.

Fixpoint HasRootMotionBone_loop (l : list Bone) (rootBoneName : string) : bool :=
  match l with
  | [] => false
  | bone :: rest =>
      match bone_parent bone with
      | None =>
          if String.eqb (bone_name bone) rootBoneName then true
          else HasRootMotionBone_loop rest rootBoneName
      | Some _ => HasRootMotionBone_loop rest rootBoneName
      end
  end.

Definition HasRootMotionBone (obj : Armature) (rootBoneName : string) : bool :=
  HasRootMotionBone_loop (bones obj) rootBoneName.

Definition already_processed_msg : string :=
  "Most likely this asset was already processed because it contains a single 'root' bone".

Section Namespace.
(** The namespace in which the function bodies look global names up. *)
Variable G : list string.

(** [obj] is the armature of the world.  Lines 129 and 130 reach the
    two predicates through the name [cmn]. *)
Definition AddSiblingRootBone (boneName : string) : M unit :=
  load_global G "cmn" ;;;
  obj <- gets w_arm ;;
  let hasOnlyOneRootBone := HasOnlyOneRootBone obj in
  load_global G "cmn" ;;;
  obj <- gets w_arm ;;
  let hasRootMotionBone := HasRootMotionBone obj boneName in
  if hasOnlyOneRootBone && hasRootMotionBone then
    raise (Exception_ already_processed_msg)
  else if hasRootMotionBone then
    print "Armature already had root motion bone"
  else
    (* Enter Edit Mode *)
    mode_set EDIT ;;;
    (* Create the new root bone *)
    newRootBone <- edit_bones_new boneName ;;
    obj <- gets w_arm ;;
    let '(sx, _, _) := scale obj in
    if Qeq_bool sx 0 then raise ZeroDivisionError
    else
      let boneSize := (1 / sx)%Q in
      set_tail newRootBone (0, - boneSize, 0)%Q ;;;
      (* Exit edit mode to save bones so they can be used in pose mode *)
      mode_set OBJECT ;;;
      print ("Added bone '" +:+ boneName +:+ "' as sibling of the current root bone.").
End Namespace.

Definition MakeParentBone (parentBoneName childBoneName : string) : M unit :=
  (* Enter Edit Mode *)
  mode_set EDIT ;;;
  ebones <- gets (fun w => edit_bones (w_arm w)) ;;
  let rootBoneIndex := find parentBoneName ebones in
  let childBoneIndex := find childBoneName ebones in
  print ("root bone index = " +:+ str_of_int rootBoneIndex +:+
         ", child bone index = " +:+ str_of_int childBoneIndex) ;;;
  match subscript ebones rootBoneIndex with
  | Raise e => raise e
  | Ok (_, parent) =>
      match subscript ebones childBoneIndex with
      | Raise e => raise e
      | Ok (c, child) =>
          set_parent c child parent ;;;
          (* Exit edit mode to save bones so they can be used in pose mode *)
          mode_set OBJECT
      end
  end.

Definition _ExportFbxInternal (fbxFilePath : string) : M unit :=
  export_scene_fbx fbxFilePath false ;;;
  print ("FBX file '" +:+ fbxFilePath +:+ "' was exported successfully").

Definition _MakeFilePathForFBX (fbxFilename fbxOutputPath : string) : M (option string) :=
  (* Clean the fbxFilename. *)
  let '(name, _) := PosixPath.splitext fbxFilename in
  let fbxFilename := name +:+ ".fbx" in
  (* Make sure the output directory exists. If not, create it. *)
  there <- path_exists fbxOutputPath ;;
  if negb there then
    try_except
      (makedirs fbxOutputPath ;;;
       ret (Some (PosixPath.join fbxOutputPath fbxFilename)))
      (print ("Failed to create output dir: '" +:+ fbxOutputPath +:+ "'") ;;;
       ret None)
  else ret (Some (PosixPath.join fbxOutputPath fbxFilename)).

Fixpoint hasImage_loop (l : list Image) : bool :=
  match l with
  | [] => false
  | image :: rest => if negb (has_data image) then hasImage_loop rest else true
  end.

Definition _CreateTexturesSubdir (outputDirectoryPath subdirName : string) : M string :=
  images <- gets w_images ;;
  let hasImage := hasImage_loop images in
  if negb hasImage then ret outputDirectoryPath
  else
    let finalDir := PosixPath.join outputDirectoryPath subdirName in
    there <- path_exists finalDir ;;
    if negb there then
      try_except
        (makedirs finalDir ;;; ret finalDir)
        (print ("Failed to create output textures dir: '" +:+ finalDir +:+ "'") ;;;
         ret outputDirectoryPath)
    else ret finalDir.

(** The body of the loop of [_UnpackTextures] for the image at index [i]. *)
Definition _UnpackTextures_body (outputDirectoryPath filenamePrefix : string) (i : nat)
  : M unit :=
  image <- image_get i ;;
  if negb (has_data image) then ret tt
  else
    let originalFilepath := filepath image in          (* Save for later *)
    let originalFilepathRaw := filepath_raw image in   (* Save for later *)
    let originalImageFilename := PosixPath.basename (filepath image) in
    let newFilename := filenamePrefix +:+ "_" +:+ originalImageFilename in
    let finalOutputPath := PosixPath.join outputDirectoryPath newFilename in
    image_set_filepath i finalOutputPath ;;;
    image_set_filepath_raw i finalOutputPath ;;;
    image_save i ;;;
    print ("Unpacked Texture " +:+ image_name image +:+ " As: " +:+ finalOutputPath) ;;;
    (* Leave as is. *)
    image_set_filepath i originalFilepath ;;;
    image_set_filepath_raw i originalFilepathRaw.

Fixpoint for_each {A} (l : list A) (body : A -> M unit) : M unit :=
  match l with
  | [] => ret tt
  | x :: rest => body x ;;; for_each rest body
  end.

Definition _UnpackTextures (outputDirectoryPath filenamePrefix : string) : M unit :=
  outputDirectoryPath <- _CreateTexturesSubdir outputDirectoryPath "textures" ;;
  images <- gets w_images ;;
  for_each (seq 0 (length images))
    (_UnpackTextures_body outputDirectoryPath filenamePrefix).

Definition ExportFBX (fbxFilename fbxOutputPath : string) (unpackTextures : bool)
  : M string :=
  outputFilename <- _MakeFilePathForFBX fbxFilename fbxOutputPath ;;
  match outputFilename with
  | None => raise (Exception_ "Undefined output filename")
  | Some outputFilename =>
      _ExportFbxInternal outputFilename ;;;
      (if unpackTextures then
         let '(prefix, _) := PosixPath.splitext fbxFilename in
         _UnpackTextures fbxOutputPath prefix
       else ret tt) ;;;
      ret outputFilename
  end.

(** [FbxProperties.ConfigJson] *)
Definition ConfigJson : string := "lumbermixalot-config.json".

Definition GetFbxExportPropertiesObj (optionsFileDir : string)
  : M (option (gmap string string)) :=
  let filename := PosixPath.join optionsFileDir ConfigJson in
  there <- path_exists filename ;;
  if negb there then ret None
  else
    obj <- open_json_load filename ;;
    ret (Some obj).

(** [if obj:] holds for a dictionary with at least one key. *)
Definition truthy (obj : option (gmap string string)) : bool :=
  match obj with
  | Some d => bool_decide (d ≠ ∅)
  | None => false
  end.

Definition GetFbxExportProperty (optionsFileDir property : string) : M string :=
  obj <- GetFbxExportPropertiesObj optionsFileDir ;;
  match obj with
  | Some d =>
      if truthy obj then
        match d !! property with
        | Some v => ret v
        | None => raise (KeyError property)
        end
      else ret ""
  | None => ret ""
  end.

Definition StoreFbxExportProperty (optionsFileDir property value : string) : M unit :=
  let data : gmap string string := ∅ in
  let data := <[property := value]> data in
  let filename := PosixPath.join optionsFileDir ConfigJson in
  open_json_dump filename data.

End Common.

Declare Scope gen_scope.
Delimit Scope gen_scope with gen.
Notation "x <- g ;; k" := (gbind g (fun x => k))
  (at level 100, g at next level, right associativity) : gen_scope.
Notation "g ;;; k" := (gbind g (fun _ => k))
  (at level 100, right associativity) : gen_scope.

(** [yield s] *)
Definition yield_ (s : Status) : Gen unit := GYield s (GRet tt).

(** ** mainmixalot.py *)
Module Main.
Import PyStr Host.

Definition _ExportFbx (fbxFilePath : string) : M unit :=
  export_scene_fbx fbxFilePath true ;;;
  print (fbxFilePath +:+ " exported successfully").

Fixpoint _CheckArmatureContainsMesh_loop (children : list Child) : bool :=
  match children with
  | [] => false
  | childObj :: rest =>
      if String.eqb (child_type childObj) "MESH" then true
      else _CheckArmatureContainsMesh_loop rest
  end.

(** [obj] is the armature of the world. *)
Definition _CheckArmatureContainsMesh : M bool :=
  obj <- gets w_arm ;;
  ret (_CheckArmatureContainsMesh_loop (children obj)).

(** [x.strip()] when [x] is a string, the empty string for [None]. *)
Definition strip_or_empty (x : option string) : string :=
  match x with
  | None => ""
  | Some s => strip s
  end.

Definition LF : string := String "010"%char EmptyString.

Definition failed_dir_msg (fbxOutputPath : string) : string :=
  "Failed to create output dir:" +:+ fbxOutputPath +:+ "." +:+ LF +:+
  "                 Will convert without exporting.".

Definition _GetOutputFilename (isActor : bool) (fbxFilename fbxOutputPath : option string)
    (appendActorOrMotionPath : bool) : M (option string) :=
  let fbxFilename := strip_or_empty fbxFilename in
  let fbxOutputPath := strip_or_empty fbxOutputPath in
  if String.eqb fbxFilename "" then ret None
  else
    (* Clean the fbxFilename. *)
    let '(name, ext) := PosixPath.splitext fbxFilename in
    let fbxFilename := name +:+ ".fbx" in
    let fbxOutputPath := if String.eqb fbxOutputPath "" then "." else fbxOutputPath in
    let fbxOutputPath :=
      if appendActorOrMotionPath then
        let dirToAppend := if isActor then "Actor" else "Motions" in
        let lastDir := PosixPath.basename (PosixPath.normpath fbxOutputPath) in
        if negb (String.eqb lastDir dirToAppend)
        then PosixPath.join fbxOutputPath dirToAppend
        else fbxOutputPath
      else fbxOutputPath in
    (* Make sure the output directory exists. If not, create it. *)
    there <- path_exists fbxOutputPath ;;
    if negb there then
      try_except
        (makedirs fbxOutputPath ;;;
         ret (Some (PosixPath.join fbxOutputPath fbxFilename)))
        (print (failed_dir_msg fbxOutputPath) ;;;
         ret None)
    else ret (Some (PosixPath.join fbxOutputPath fbxFilename)).

Section Convert.
(** [actormixalot.ProcessActor(armatureObj, rootBoneName)] and
    [motionmixalot.ProcessMotion(sceneObj, armatureObj, hipBoneName,
    rootBoneName, animationSampleRate, dumpCSVs)]: generators of two
    modules that are not part of this development.  The scene and the
    armature are those of the world. *)
Variable ProcessActor : string -> Gen unit.
Variable ProcessMotion : string -> string -> Q -> bool -> Gen unit.

(** [yield Status(msg)] *)
Definition yield_status (msg : string) : Gen unit :=
  (s <- lift (Common.Status_init msg) ;;
   yield_ s)%gen.

Definition Convert (hipBoneName rootBoneName : option string)
    (animationSampleRate : Q) (fbxFilename fbxOutputPath : option string)
    (appendActorOrMotionPath dumpCSVs : bool) : Gen Z :=
  (yield_status "starting Convert" ;;;
   let hipBoneName := strip_or_empty hipBoneName in
   let rootBoneName := strip_or_empty rootBoneName in
   let hipBoneName := if String.eqb hipBoneName "" then "Hips" else hipBoneName in
   let rootBoneName := if String.eqb rootBoneName "" then "root" else rootBoneName in
   isActor <- lift _CheckArmatureContainsMesh ;;
   yield_status ("Checked Asset Type. isActor=" +:+ str_of_bool isActor) ;;;
   outputFilename <- lift (_GetOutputFilename isActor fbxFilename fbxOutputPath
                             appendActorOrMotionPath) ;;
   yield_status "Processed output path strings" ;;;
   let conversion_iterator :=
     if isActor then ProcessActor rootBoneName
     else ProcessMotion hipBoneName rootBoneName animationSampleRate dumpCSVs in
   for_in conversion_iterator
     (fun status => yield_status (Common.Status_str status)) ;;;
   yield_status "Completed Asset Conversion." ;;;
   match outputFilename with
   | Some outputFilename =>
       lift (_ExportFbx outputFilename) ;;;
       yield_status "FBX Assert exported."
   | None => GRet tt
   end ;;;
   GRet 1)%gen.
End Convert.

End Main.

(** ** Path resolution, in the words of its description *)
Module Resolution.
Import PyStr.

(** The fixed subdirectory of each kind of asset. *)
Definition segment (isActor : bool) : string :=
  if isActor then "Actor" else "Motions".

(** The last segment of a directory path. *)
Definition last_segment (dir : string) : string :=
  PosixPath.basename (PosixPath.normpath dir).

(** The output directory asked for, the current directory by default. *)
Definition asked_dir (fbxOutputPath : option string) : string :=
  if String.eqb (Main.strip_or_empty fbxOutputPath) "" then "."
  else Main.strip_or_empty fbxOutputPath.

(** The directory the export goes to: the segment is appended on demand,
    unless the directory ends in it already. *)
Definition output_dir (isActor : bool) (fbxOutputPath : option string)
    (appendActorOrMotionPath : bool) : string :=
  let dir := asked_dir fbxOutputPath in
  if appendActorOrMotionPath then
    if String.eqb (last_segment dir) (segment isActor) then dir
    else PosixPath.join dir (segment isActor)
  else dir.

(** The file name with its extension replaced by [.fbx]. *)
Definition fbx_name (fbxFilename : string) : string :=
  fst (PosixPath.splitext fbxFilename) +:+ ".fbx".



(** [None], the empty string, or white space only. *)
Definition blank (fbxFilename : option string) : bool :=
  match fbxFilename with
  | None => true
  | Some s => all_space s
  end.

Definition dir_exists (dir : string) (w : World) : bool :=
  bool_decide (is_Some (nodes (w_fs w) !! dir)).

Definition dir_refused (dir : string) (w : World) : bool :=
  bool_decide (dir ∈ refused (w_fs w)).

(** The file system lets [p] be written. *)
Definition writable (p : string) (w : World) : bool :=
  negb (bool_decide (p ∈ refused (w_fs w))).

(** The directory is there or can be made. *)
Definition available (dir : string) (w : World) : bool :=
  dir_exists dir w || negb (dir_refused dir w).

(** The world once [dir] has been created. *)
Definition with_dir (dir : string) (w : World) : World :=
  set_fs (mkFS (<[dir := Dir]> (nodes (w_fs w))) (refused (w_fs w))) w.

End Resolution.

(** ** Texture extraction, in the words of its description *)
Module Textures.

(** The subdirectory the images are meant for. *)
Definition textures_dir (outputDirectoryPath : string) : string :=
  PosixPath.join outputDirectoryPath "textures".

(** Where an image goes inside [dir]: its own file name behind the prefix. *)
Definition saved_path (dir filenamePrefix : string) (im : Image) : string :=
  PosixPath.join dir (filenamePrefix +:+ "_" +:+ PosixPath.basename (filepath im)).

(** One save for each image that has data, in the order of the collection. *)
Definition saves (dir filenamePrefix : string) (l : list Image) : list HostCall :=
  map (fun im => ImageSave (image_name im) (saved_path dir filenamePrefix im))
      (List.filter has_data l).

(** The directory the images do go to: the subdirectory when an image has
    data and the subdirectory is there or can be made, else the output
    directory itself. *)
Definition target_dir (outputDirectoryPath : string) (w : World) : string :=
  if Common.hasImage_loop (w_images w)
     && Resolution.available (textures_dir outputDirectoryPath) w
  then textures_dir outputDirectoryPath
  else outputDirectoryPath.

(** The save of an image goes through once its paths have been set: its
    pixels are packed with the document, and the file can be written. *)
Definition can_save (dir filenamePrefix : string) (w : World) (im : Image) : bool :=
  packed_file im && Resolution.writable (saved_path dir filenamePrefix im) w.

(** That holds of every image the extraction is to save. *)
Definition all_saveable (dir filenamePrefix : string) (w : World) : bool :=
  forallb (fun im => negb (has_data im) || can_save dir filenamePrefix w im)
          (w_images w).

(** An image the extraction went through: it has its name and its paths,
    and its pixels are no longer in memory. *)
Definition released (im : Image) : Image :=
  mkImage (image_name im) false (filepath im) (filepath_raw im) (packed_file im).

Definition after_extraction (l : list Image) : list Image :=
  map (fun im => if has_data im then released im else im) l.

(** Two images under the same name and with the same paths. *)
Definition same_paths (a b : Image) : Prop :=
  image_name a = image_name b /\ filepath a = filepath b /\
  filepath_raw a = filepath_raw b.


(** What making the subdirectory leaves alone: the images, the armature,
    the interaction mode, and what the file system refuses. *)
Definition kept (w w' : World) : Prop :=
  w_images w' = w_images w /\ w_arm w' = w_arm w /\ w_mode w' = w_mode w /\
  refused (w_fs w') = refused (w_fs w).

End Textures.

(** ** What a run of [Convert] that exports nothing looks like *)
Module Outcome.

(** The three events every run of [Convert] starts with. *)
Definition opening (isActor : bool) : list Status :=
  [mkStatus "starting Convert" "default";
   mkStatus ("Checked Asset Type. isActor=" +:+ PyStr.str_of_bool isActor) "default";
   mkStatus "Processed output path strings" "default"].

(** The world when path resolution starts. *)
Definition before_resolution (w : World) : World :=
  let isActor := Main._CheckArmatureContainsMesh_loop (children (w_arm w)) in
  say ("Checked Asset Type. isActor=" +:+ PyStr.str_of_bool isActor)
    (say "starting Convert" w).

(** The generator [Convert] picks, with the defaults of lines 147-152. *)
Definition name_or (x : option string) (default : string) : string :=
  if String.eqb (Main.strip_or_empty x) "" then default else Main.strip_or_empty x.

Definition conversion_iterator (ProcessActor : string -> Gen unit)
    (ProcessMotion : string -> string -> Q -> bool -> Gen unit)
    (hipBoneName rootBoneName : option string) (animationSampleRate : Q)
    (dumpCSVs isActor : bool) : Gen unit :=
  if isActor then ProcessActor (name_or rootBoneName "root")
  else ProcessMotion (name_or hipBoneName "Hips") (name_or rootBoneName "root")
         animationSampleRate dumpCSVs.

(** The loop of lines 169-170 over that generator. *)
Definition relay (it : Gen unit) : Gen unit :=
  for_in it (fun status => Main.yield_status (Common.Status_str status)).

(** The whole conversion and nothing after it: the opening events, the
    relayed ones, the closing event and the value [1]; or the exception
    of the conversion itself.  [w3] is the world path resolution left. *)
Definition conversion_only (it : Gen unit) (isActor : bool) (w3 : World)
  : list Status * Res Z * World :=
  match drive (relay it) (say "Processed output path strings" w3) with
  | (ys, Ok _, w5) =>
      (opening isActor ++ ys ++ [mkStatus "Completed Asset Conversion." "default"],
       Ok 1, say "Completed Asset Conversion." w5)
  | (ys, Raise e, w5) => (opening isActor ++ ys, Raise e, w5)
  end.

End Outcome.

(** ** The conversion, told without the loop that runs it *)
Module Conversion.

(** A conversion generator carried out to its end, each status it yields
    being printed and handed on as a fresh status of its text: every
    statement of the generator is executed, in the order of the generator
    and in the world the statements and messages before it have left; an
    exception of a statement ends the conversion there. *)
Fixpoint relayed (it : Gen unit) (w : World) : list Status * Res unit * World :=
  match it with
  | GRet _ => ([], Ok tt, w)
  | GYield s k =>
      prepend [mkStatus (msg s) "default"] (relayed k (say (msg s) w))
  | GDo m k =>
      match m w with
      | (Ok a, w') => relayed (k a) w'
      | (Raise e, w') => ([], Raise e, w')
      end
  end.

(** A run of [Convert] that is the conversion and nothing after it: the
    opening events, the conversion carried out, the closing event and the
    value [1]; or the events up to an exception of the conversion, and that
    exception.  [w3] is the world path resolution left. *)
Definition alone (it : Gen unit) (isActor : bool) (w3 : World)
  : list Status * Res Z * World :=
  match relayed it (say "Processed output path strings" w3) with
  | (ys, Ok _, w5) =>
      (Outcome.opening isActor ++ ys ++ [mkStatus "Completed Asset Conversion." "default"],
       Ok 1, say "Completed Asset Conversion." w5)
  | (ys, Raise e, w5) => (Outcome.opening isActor ++ ys, Raise e, w5)
  end.

End Conversion.

(** ** Sample scenes *)
Module Samples.

Definition origin : Vec3 := (0, 0, 0)%Q.
Definition unit_scale : Vec3 := (1, 1, 1)%Q.

Definition empty_fs : FS := mkFS ∅ ∅.

Definition scene (l : list Bone) (kids : list Child) (imgs : list Image) (fs : FS)
  : World :=
  mkWorld OBJECT fs (mkArmature unit_scale kids l []) imgs [] [].

(** A rig that went through the conversion already: [root] is the only
    parentless bone. *)
Definition converted_rig : World :=
  scene [mkBone "root" None origin;
         mkBone "Hips" (Some "root") origin;
         mkBone "Spine" (Some "Hips") origin] [] [] empty_fs.

(** A fresh rig to which the root bone was added last, as
    [AddSiblingRootBone] is written to do. *)
Definition rig_root_last : World :=
  scene [mkBone "Hips" None origin;
         mkBone "Spine" (Some "Hips") origin;
         mkBone "root" None origin] [] [] empty_fs.

(** A rig whose root bone comes first. *)
Definition rig_root_first : World :=
  scene [mkBone "root" None origin;
         mkBone "Hips" None origin;
         mkBone "Spine" (Some "Hips") origin] [] [] empty_fs.

(** An armature with a mesh and one without. *)
Definition actor_scene : World :=
  scene [mkBone "Hips" None origin]
        [mkChild "Lamp" "LIGHT"; mkChild "Body" "MESH"] [] empty_fs.
Definition motion_scene : World :=
  scene [mkBone "Hips" None origin] [mkChild "Lamp" "LIGHT"] [] empty_fs.

(** The same scenes on a file system that refuses the output
    subdirectory. *)
Definition locked_fs : FS := mkFS ∅ {["out/Motions"; "out/Actor"]}.
Definition locked_motion_scene : World :=
  scene [mkBone "Hips" None origin] [mkChild "Lamp" "LIGHT"] [] locked_fs.

(** A directory that holds a configuration file with one setting. *)
Definition configured_scene : World :=
  scene [mkBone "Hips" None origin] [] []
    (mkFS {[ "proj/lumbermixalot-config.json" := JsonFile {[ "hipBoneName" := "Hips" ]} ]} ∅).

(** A scene with two images, a packed texture and an image without data,
    on a file system that lets everything be written, and on one that
    refuses the textures subdirectory. *)
Definition two_images : list Image :=
  [mkImage "skin" true "//textures/skin.png" "//textures/skin.png" true;
   mkImage "Render Result" false "" "" false].

Definition textured_scene : World :=
  scene [mkBone "Hips" None origin] [mkChild "Body" "MESH"] two_images empty_fs.


(** Stand-ins for the two conversion generators. *)
Definition ProcessActor_two_steps (rootBoneName : string) : Gen unit :=
  (yield_ (mkStatus ("added " +:+ rootBoneName) "default") ;;;
   yield_ (mkStatus "rest pose applied" "default"))%gen.

Definition ProcessMotion_two_steps (hipBoneName rootBoneName : string)
    (animationSampleRate : Q) (dumpCSVs : bool) : Gen unit :=
  (yield_ (mkStatus ("added " +:+ rootBoneName) "default") ;;;
   yield_ (mkStatus ("baked " +:+ hipBoneName) "default"))%gen.

(** Conversions with statements between their events: the root bone is
    added in edit mode and reported, and for a motion the hip bone is then
    put under it and reported. *)
Definition ProcessActor_adding_root (rootBoneName : string) : Gen unit :=
  (lift (Host.mode_set EDIT) ;;;
   lift (Host.edit_bones_new rootBoneName) ;;;
   lift (Host.mode_set OBJECT) ;;;
   Main.yield_status ("added " +:+ rootBoneName))%gen.

Definition ProcessMotion_adding_root (hipBoneName rootBoneName : string)
    (animationSampleRate : Q) (dumpCSVs : bool) : Gen unit :=
  (ProcessActor_adding_root rootBoneName ;;;
   lift (Common.MakeParentBone rootBoneName hipBoneName) ;;;
   Main.yield_status ("parented " +:+ hipBoneName))%gen.

End Samples.

(** ** commonmixalot.py, the functions the sections above do not need *)
Module CommonRest.
Import PyStr Host.

(** [armatureObj.pose.bones] holds one pose bone for each bone of the
    armature, under the same name and in the same order; the pose bone is
    identified with its bone. *)
Fixpoint GetPoseBoneFromArmature_loop (l : list Bone) (boneName : string) : option Bone :=
  match l with
  | [] => None
  | bone :: rest =>
      if String.eqb (bone_name bone) boneName then Some bone
      else GetPoseBoneFromArmature_loop rest boneName
  end.

Definition GetPoseBoneFromArmature (boneName : string) : M (option Bone) :=
  mode_set POSE ;;;
  armatureObj <- gets w_arm ;;
  ret (GetPoseBoneFromArmature_loop (bones armatureObj) boneName).

(** [scene.objects] as the objects with their type. *)
Fixpoint GetFirstAmature_loop (objects : list Child) : option Child :=
  match objects with
  | [] => None
  | obj :: rest =>
      if String.eqb (child_type obj) "ARMATURE" then Some obj
      else GetFirstAmature_loop rest
  end.

Definition GetFirstAmature (scene_objects : list Child) : option Child :=
  GetFirstAmature_loop scene_objects.

Section Collection.
(** A collection of [bpy.data]: the name of an item, and where the world
    keeps the items. *)
Context {A : Type}.
Variable key : A -> string.
Variable get : World -> list A.
Variable put : list A -> World -> World.

(** [for name in collection.keys(): dataNames.append(name)] *)
Fixpoint keys_loop (l : list A) (dataNames : list string) : list string :=
  match l with
  | [] => dataNames
  | x :: rest => keys_loop rest (dataNames ++ [key x])
  end.

Fixpoint index_of_key (name : string) (l : list A) (i : nat) : option nat :=
  match l with
  | [] => None
  | x :: rest => if String.eqb (key x) name then Some i else index_of_key name rest (S i)
  end.

(** [collection[name]]: the first item of that name, known by its
    position; [KeyError] when there is none. *)
Definition collection_subscript (name : string) : M nat :=
  fun w => match index_of_key name (get w) 0 with
           | Some i => (Ok i, w)
           | None => (Raise (KeyError name), w)
           end.

(** [collection.remove(item)] *)
Definition collection_remove (item : nat) : M unit :=
  modify (fun w => put (delete item (get w)) w).

Definition _ClearCachedCollectionData (collectionTypeName : string) : M unit :=
  l <- gets get ;;
  let dataNames := keys_loop l [] in
  if (0 <? length dataNames)%nat then
    print ("Found " +:+ str_of_int (Z.of_nat (length dataNames)) +:+ " leftover " +:+
           collectionTypeName +:+ "s. Will proceed to remove them...") ;;;
    Common.for_each dataNames
      (fun name =>
         item <- collection_subscript name ;;
         collection_remove item ;;;
         print ("Removed leftover " +:+ collectionTypeName +:+ " '" +:+ name +:+ "'")) ;;;
    print ("Removed all leftover " +:+ collectionTypeName +:+ "s")
  else ret tt.

End Collection.

(** [_ClearCachedCollectionData(bpy.data.images, "texture")] *)
Definition _ClearOldTextureData : M unit :=
  _ClearCachedCollectionData image_name w_images set_images "texture".

End CommonRest.

(** ** Pulling a generator one event at a time *)
Module Pull.

(** What [next(g)] gives: an event and the generator to go on with, or the
    end of the generator. *)
Inductive Pulled (R : Type) : Type :=
| Event (s : Status) (rest : Gen R)
| Finished (r : Res R).
Arguments Event {R} s rest.
Arguments Finished {R} r.

Fixpoint next {R} (g : Gen R) (w : World) : Pulled R * World :=
  match g with
  | GRet r => (Finished (Ok r), w)
  | GYield s k => (Event s k, w)
  | GDo m k => match m w with
               | (Ok a, w') => next (k a) w'
               | (Raise e, w') => (Finished (Raise e), w')
               end
  end.

End Pull.

(** ** What a run of [Convert] that exports looks like *)
Module Exported.

Definition completed : Status := mkStatus "Completed Asset Conversion." "default".
Definition exported : Status := mkStatus "FBX Assert exported." "default".

(** The conversion, then the export to [p]: an exception of the
    conversion ends the run before the export, an exception of the export
    ends it after the closing event of the conversion. *)
Definition conversion_then_export (it : Gen unit) (isActor : bool) (p : string)
    (w3 : World) : list Status * Res Z * World :=
  match drive (Outcome.relay it) (say "Processed output path strings" w3) with
  | (ys, Ok _, w5) =>
      match Main._ExportFbx p (say "Completed Asset Conversion." w5) with
      | (Ok _, w7) =>
          (Outcome.opening isActor ++ ys ++ [completed; exported], Ok 1,
           say "FBX Assert exported." w7)
      | (Raise e, w7) => (Outcome.opening isActor ++ ys ++ [completed], Raise e, w7)
      end
  | (ys, Raise e, w5) => (Outcome.opening isActor ++ ys, Raise e, w5)
  end.

End Exported.

(** ** Words for the bone hierarchy *)
Module Rig.

(** A bone without a parent. *)
Definition parentless (b : Bone) : bool :=
  match bone_parent b with
  | None => true
  | Some _ => false
  end.

(** The parentless bones, in the order of the collection. *)
Definition roots (l : list Bone) : list Bone := List.filter parentless l.

Definition named (name : string) (b : Bone) : bool := String.eqb (bone_name b) name.

(** The edit bones [MakeParentBone] works on: those of the world once edit
    mode is entered. *)
Definition entered (w : World) : list Bone :=
  edit_bones (w_arm (snd (Host.mode_set EDIT w))).

End Rig.

(** ** More sample scenes *)
Module MoreSamples.

(** An armature without bones. *)
Definition boneless_scene : World := Samples.scene [] [] [] Samples.empty_fs.

(** A rig with two parentless bones. *)
Definition two_roots_scene : World :=
  Samples.scene [mkBone "Hips" None Samples.origin;
                 mkBone "Spine" (Some "Hips") Samples.origin;
                 mkBone "Prop" None Samples.origin] [] [] Samples.empty_fs.

(** A scene whose only image has no data. *)
Definition render_only_scene : World :=
  Samples.scene [mkBone "Hips" None Samples.origin] []
    [mkImage "Render Result" false "" "" false] Samples.empty_fs.

(** Two textures loaded from files of their own, not packed, and an image
    without data before them; the file system lets everything be
    written. *)
Definition linked_textures_scene : World :=
  Samples.scene [mkBone "Hips" None Samples.origin] [mkChild "Body" "MESH"]
    [mkImage "Render Result" false "" "" false;
     mkImage "skin" true "//textures/skin.png" "//textures/skin.png" false;
     mkImage "hair" true "//textures/hair.png" "//textures/hair.png" false]
    Samples.empty_fs.

(** A conversion that fails after its first event. *)
Definition ProcessMotion_failing (hipBoneName rootBoneName : string)
    (animationSampleRate : Q) (dumpCSVs : bool) : Gen unit :=
  (yield_ (mkStatus ("added " +:+ rootBoneName) "warning") ;;;
   lift (raise (Exception_ "no animation data")))%gen.

(** The objects of a scene. *)
Definition scene_objects : list Child :=
  [mkChild "Camera" "CAMERA"; mkChild "Armature" "ARMATURE";
   mkChild "Body" "MESH"; mkChild "Armature.001" "ARMATURE"].

End MoreSamples.


(** * Properties *)

(** ** The runtime functions on a few inputs *)

Example splitext_last_dot : PosixPath.splitext "anim.tar.gz" = ("anim.tar", ".gz").
Proof. reflexivity. Qed.

Example splitext_leading_dots : PosixPath.splitext "a/.bashrc" = ("a/.bashrc", "").
Proof. reflexivity. Qed.

Example splitext_dot_in_directory : PosixPath.splitext "a.b/c" = ("a.b/c", "").
Proof. reflexivity. Qed.

Example normpath_collapses : PosixPath.normpath "out//x/../Actor/" = "out/Actor".
Proof. reflexivity. Qed.

Example normpath_two_slashes : PosixPath.normpath "//a/./b/.." = "//a".
Proof. reflexivity. Qed.

Example basename_of_host_path : PosixPath.basename "//textures/skin.png" = "skin.png".
Proof. reflexivity. Qed.

Example join_absolute : PosixPath.join "out" "/tmp/x" = "/tmp/x".
Proof. reflexivity. Qed.

Example strip_both_ends : PyStr.strip "  a b  " = "a b".
Proof. reflexivity. Qed.

Example str_of_minus_one : PyStr.str_of_int (-1) = "-1".
Proof. reflexivity. Qed.

Example find_absent :
  Host.find "Hip" (bones (w_arm Samples.rig_root_first)) = -1.
Proof. reflexivity. Qed.

(** ** Strings and paths *)





Lemma lstrip_all_space (s : string) : PyStr.all_space s = true -> PyStr.lstrip s = "".
Proof.
  induction s as [|a s IH]; simpl; [reflexivity|].
  destruct (PyStr.isspace a); simpl; [exact IH | discriminate].
Qed.

(** A string made of white space only strips to the empty string. *)
Lemma strip_all_space (s : string) : PyStr.all_space s = true -> PyStr.strip s = "".
Proof. intros H; unfold PyStr.strip; now rewrite lstrip_all_space. Qed.







(** ** The monad and the generators *)

Lemma bind_ok {A B} (m : M A) (k : A -> M B) (w w' : World) (a : A) :
  m w = (Ok a, w') -> bind m k w = k a w'.
Proof. unfold bind; now intros ->. Qed.

Lemma bind_raise {A B} (m : M A) (k : A -> M B) (w w' : World) (e : PyExc) :
  m w = (Raise e, w') -> bind m k w = (Raise e, w').
Proof. unfold bind; now intros ->. Qed.

Lemma drive_gbind {A B} (g : Gen A) (f : A -> Gen B) (w : World) :
  drive (gbind g f) w = drive_then f (drive g w).
Proof.
  revert w; induction g as [a | s k IH | X m k IH]; intros w; simpl.
  - now destruct (drive (f a) w) as [[ys r] w'].
  - rewrite IH. destruct (drive k w) as [[ys [a|e]] w']; simpl; [|reflexivity].
    now destruct (drive (f a) w') as [[ys' r'] w''].
  - destruct (m w) as [[x|e] w']; [apply IH | reflexivity].
Qed.

(** ** Name resolution in [commonmixalot] *)

Lemma cmn_not_builtin : bool_decide ("cmn" ∈ Common.builtins) = false.
Proof. vm_compute. reflexivity. Qed.

Lemma cmn_unbound (mathutils_public : list string) :
  "cmn" ∉ mathutils_public ->
  Common.load_global (Common.module_globals mathutils_public) "cmn"
  = raise (NameError "cmn").
Proof.
  intros Hm. unfold Common.load_global.
  rewrite cmn_not_builtin, orb_false_r.
  rewrite bool_decide_eq_false_2; [reflexivity|].
  unfold Common.module_globals. rewrite !elem_of_app.
  intros [H | [H | H]]; [| exact (Hm H) |].
  - apply (bool_decide_pack _) in H. vm_compute in H. exact H.
  - apply (bool_decide_pack _) in H. vm_compute in H. exact H.
Qed.

(** ** Bone hierarchy *)

(** The guard of [AddSiblingRootBone] as it is written to work: in a
    namespace that binds [cmn] (the sibling modules import [commonmixalot]
    under that name), a rig whose only parentless bone carries the root
    bone's name is rejected before anything is touched. *)
Lemma AddSiblingRootBone_guard_when_bound (G : list string) (boneName : string) (w : World) :
  "cmn" ∈ G ->
  Common.HasOnlyOneRootBone (w_arm w) = true ->
  Common.HasRootMotionBone (w_arm w) boneName = true ->
  Common.AddSiblingRootBone G boneName w
  = (Raise (Exception_ Common.already_processed_msg), w).
Proof.
  intros HG H1 H2. unfold Common.AddSiblingRootBone, Common.load_global.
  rewrite (bool_decide_eq_true_2 _ HG). simpl.
  unfold bind, gets, ret, raise. now rewrite H1, H2.
Qed.

(** C8: whatever the armature and the bone name, [AddSiblingRootBone] of
    [commonmixalot] raises [NameError] for [cmn] at its first statement,
    because nothing binds that name in the module (its imports, what
    [mathutils] exports and its own definitions); the world, and so the bone
    hierarchy, is left as it was: no root bone is created and neither the
    already-processed branch nor the bone-creation branch is reached. *)
Theorem AddSiblingRootBone_raises_NameError
    (mathutils_public : list string) (boneName : string) (w : World) :
  "cmn" ∉ mathutils_public ->
  Common.AddSiblingRootBone (Common.module_globals mathutils_public) boneName w
  = (Raise (NameError "cmn"), w).
Proof.
  intros Hm. unfold Common.AddSiblingRootBone.
  apply bind_raise. now rewrite cmn_unbound.
Qed.

Lemma AddSiblingRootBone_raises_NameError_witness :
  ("cmn" ∉ Common.mathutils_names) /\
  Common.AddSiblingRootBone (Common.module_globals Common.mathutils_names)
    "root" Samples.rig_root_first
  = (Raise (NameError "cmn"), Samples.rig_root_first).
Proof.
  assert (H : "cmn" ∉ Common.mathutils_names).
  { intros H. apply (bool_decide_pack _) in H. vm_compute in H. exact H. }
  split; [exact H|].
  apply (AddSiblingRootBone_raises_NameError Common.mathutils_names "root"
           Samples.rig_root_first H).
Defined.

(** C1: on a rig whose only parentless bone is already called [root], the
    call [AddSiblingRootBone(obj, "root")] does leave the hierarchy as it
    was, but what it raises is the [NameError] of its first statement, not
    the already-processed exception of line 132. *)
Theorem AddSiblingRootBone_on_converted_rig :
  Common.HasOnlyOneRootBone (w_arm Samples.converted_rig) = true /\
  Common.HasRootMotionBone (w_arm Samples.converted_rig) "root" = true /\
  Common.AddSiblingRootBone (Common.module_globals Common.mathutils_names)
    "root" Samples.converted_rig
  = (Raise (NameError "cmn"), Samples.converted_rig) /\
  NameError "cmn" <> Exception_ Common.already_processed_msg.
Proof. repeat split; try reflexivity. discriminate. Qed.

Lemma find_from_range (key : string) (l : list Bone) (i : Z) :
  Host.find_from key l i = -1 \/ i <= Host.find_from key l i < i + Z.of_nat (length l).
Proof.
  revert i; induction l as [|b l IH]; intros i; simpl; [now left|].
  destruct (String.eqb (bone_name b) key); [right; lia|].
  destruct (IH (i + 1)) as [-> | H]; [now left | right; lia].
Qed.

(** A bone collection that is not empty answers every index [find] can
    return: [-1] selects its last element. *)
Lemma subscript_find (key : string) (l : list Bone) :
  l <> [] -> exists k b, Host.subscript l (Host.find key l) = Ok (k, b).
Proof.
  intros Hl. unfold Host.subscript, Host.abs_index, Host.find.
  assert (Hlen : (0 < length l)%nat) by (destruct l; simpl; [congruence | lia]).
  destruct (find_from_range key l 0) as [-> | H].
  - replace (-1 <? 0) with true by reflexivity.
    replace ((0 <=? -1 + Z.of_nat (length l)) && (-1 + Z.of_nat (length l) <? Z.of_nat (length l)))
      with true by (symmetry; apply andb_true_intro; split; [apply Z.leb_le | apply Z.ltb_lt]; lia).
    destruct (lookup_lt_is_Some_2 l (Z.to_nat (-1 + Z.of_nat (length l)))) as [b Hb]; [lia|].
    rewrite Hb. eauto.
  - replace (Host.find_from key l 0 <? 0) with false by (symmetry; apply Z.ltb_ge; lia).
    replace ((0 <=? Host.find_from key l 0) && (Host.find_from key l 0 <? Z.of_nat (length l)))
      with true by (symmetry; apply andb_true_intro; split; [apply Z.leb_le | apply Z.ltb_lt]; lia).
    destruct (lookup_lt_is_Some_2 l (Z.to_nat (Host.find_from key l 0))) as [b Hb]; [lia|].
    rewrite Hb. eauto.
Qed.

(** No name makes [MakeParentBone] fail on an armature that has bones. *)
Lemma MakeParentBone_never_fails (parentBoneName childBoneName : string) (w : World) :
  edit_bones (w_arm (snd (Host.mode_set EDIT w))) <> [] ->
  fst (Common.MakeParentBone parentBoneName childBoneName w) = Ok tt.
Proof.
  intros Hl. unfold Common.MakeParentBone.
  unfold bind at 1. destruct (Host.mode_set EDIT w) as [r w1] eqn:E1.
  assert (r = Ok tt) as -> by (unfold Host.mode_set, modify in E1; congruence).
  simpl in Hl. unfold bind, gets, print, modify. simpl.
  destruct (subscript_find parentBoneName _ Hl) as (k1 & b1 & ->).
  destruct (subscript_find childBoneName _ Hl) as (k2 & b2 & ->).
  reflexivity.
Qed.

(** C2: [MakeParentBone(obj, "root", "Hip")] on a rig that has no bone
    called [Hip]: [find] answers [-1], the index [-1] selects the last bone
    of the collection, and the call ends without any exception.  When the
    last bone is [Spine] it is moved under [root]; when the last bone is
    [root] itself the host drops the assignment and nothing changes. *)
Theorem MakeParentBone_absent_child :
  Host.find "Hip" (bones (w_arm Samples.rig_root_first)) = -1 /\
  fst (Common.MakeParentBone "root" "Hip" Samples.rig_root_first) = Ok tt /\
  bones (w_arm (snd (Common.MakeParentBone "root" "Hip" Samples.rig_root_first)))
  = [mkBone "root" None Samples.origin;
     mkBone "Hips" None Samples.origin;
     mkBone "Spine" (Some "root") Samples.origin] /\
  fst (Common.MakeParentBone "root" "Hip" Samples.rig_root_last) = Ok tt /\
  bones (w_arm (snd (Common.MakeParentBone "root" "Hip" Samples.rig_root_last)))
  = bones (w_arm Samples.rig_root_last).
Proof. repeat split; reflexivity. Qed.

(** ** Runs of [Convert] *)

Lemma drive_yield_status (m : string) (w : World) :
  drive (Main.yield_status m) w = ([mkStatus m "default"], Ok tt, say m w).
Proof. reflexivity. Qed.

Lemma drive_lift {A} (m : M A) (w w' : World) (r : Res A) :
  m w = (r, w') -> drive (lift m) w = ([], r, w').
Proof. intros H. simpl. rewrite H. now destruct r. Qed.

(** When path resolution answers [None], [Convert] is the conversion and
    nothing more. *)
Lemma drive_Convert_no_output
    (ProcessActor : string -> Gen unit)
    (ProcessMotion : string -> string -> Q -> bool -> Gen unit)
    (hipBoneName rootBoneName : option string) (animationSampleRate : Q)
    (fbxFilename fbxOutputPath : option string)
    (appendActorOrMotionPath dumpCSVs : bool) (w w3 : World) :
  let isActor := Main._CheckArmatureContainsMesh_loop (children (w_arm w)) in
  Main._GetOutputFilename isActor fbxFilename fbxOutputPath appendActorOrMotionPath
    (Outcome.before_resolution w) = (Ok None, w3) ->
  drive (Main.Convert ProcessActor ProcessMotion hipBoneName rootBoneName
           animationSampleRate fbxFilename fbxOutputPath appendActorOrMotionPath dumpCSVs) w
  = Outcome.conversion_only
      (Outcome.conversion_iterator ProcessActor ProcessMotion hipBoneName rootBoneName
         animationSampleRate dumpCSVs isActor) isActor w3.
Proof.
  intros isActor H. unfold Outcome.before_resolution in H. fold isActor in H.
  unfold Main.Convert.
  rewrite drive_gbind, drive_yield_status. cbn [drive_then].
  rewrite drive_gbind.
  rewrite (drive_lift Main._CheckArmatureContainsMesh (say "starting Convert" w)
             (say "starting Convert" w) (Ok isActor)) by reflexivity.
  cbn [drive_then].
  rewrite drive_gbind, drive_yield_status. cbn [drive_then].
  rewrite drive_gbind.
  rewrite (drive_lift _ _ _ _ H). cbn [drive_then].
  rewrite drive_gbind, drive_yield_status. cbn [drive_then].
  rewrite drive_gbind.
  unfold Outcome.conversion_only, Outcome.relay, Outcome.conversion_iterator, Outcome.name_or.
  destruct (drive (for_in _ _) _) as [[ys [[]|e]] w5]; cbn [drive_then]; [|reflexivity].
  rewrite drive_gbind, drive_yield_status. cbn [drive_then drive gbind].
  reflexivity.
Qed.

(** ** Path resolution *)

Lemma blank_strip (f : option string) :
  Resolution.blank f = true -> Main.strip_or_empty f = "".
Proof. destruct f as [s|]; simpl; [apply strip_all_space | reflexivity]. Qed.

(** The three ways [_GetOutputFilename] ends for a file name that is not
    blank: the directory is there, it is created, or it cannot be. *)
Lemma GetOutputFilename_cases (isActor : bool) (fbxFilename fbxOutputPath : option string)
    (appendActorOrMotionPath : bool) (w : World) :
  Main.strip_or_empty fbxFilename <> "" ->
  let dir := Resolution.output_dir isActor fbxOutputPath appendActorOrMotionPath in
  let path := PosixPath.join dir (Resolution.fbx_name (Main.strip_or_empty fbxFilename)) in
  Main._GetOutputFilename isActor fbxFilename fbxOutputPath appendActorOrMotionPath w
  = if Resolution.dir_exists dir w then (Ok (Some path), w)
    else if Resolution.dir_refused dir w
         then (Ok None, say (Main.failed_dir_msg dir) w)
         else (Ok (Some path), Resolution.with_dir dir w).
Proof.
  intros Hf dir path. unfold Main._GetOutputFilename.
  destruct (String.eqb (Main.strip_or_empty fbxFilename) "") eqn:E.
  { apply String.eqb_eq in E. contradiction. }
  subst path. unfold Resolution.fbx_name.
  destruct (PosixPath.splitext (Main.strip_or_empty fbxFilename)) as [name ext]. simpl fst.
  assert (Hd : (if appendActorOrMotionPath
                then if negb (String.eqb
                         (PosixPath.basename (PosixPath.normpath
                            (if String.eqb (Main.strip_or_empty fbxOutputPath) ""
                             then "." else Main.strip_or_empty fbxOutputPath)))
                         (if isActor then "Actor" else "Motions"))
                     then PosixPath.join
                            (if String.eqb (Main.strip_or_empty fbxOutputPath) ""
                             then "." else Main.strip_or_empty fbxOutputPath)
                            (if isActor then "Actor" else "Motions")
                     else (if String.eqb (Main.strip_or_empty fbxOutputPath) ""
                           then "." else Main.strip_or_empty fbxOutputPath)
                else (if String.eqb (Main.strip_or_empty fbxOutputPath) ""
                      then "." else Main.strip_or_empty fbxOutputPath)) = dir).
  { subst dir. unfold Resolution.output_dir, Resolution.last_segment,
      Resolution.asked_dir, Resolution.segment.
    destruct appendActorOrMotionPath; [|reflexivity].
    now destruct (String.eqb _ (if isActor then _ else _)). }
  rewrite Hd. clearbody dir. clear Hd.
  unfold bind, Host.path_exists, gets, try_except, Host.makedirs, print, modify, ret,
    Resolution.dir_exists, Resolution.dir_refused, Resolution.with_dir.
  destruct (bool_decide (is_Some (nodes (w_fs w) !! dir))) eqn:E1; simpl.
  - reflexivity.
  - destruct (bool_decide (dir ∈ refused (w_fs w))) eqn:E2; simpl;
      rewrite ?E1; reflexivity.
Qed.

Lemma GetOutputFilename_blank (isActor : bool) (fbxFilename fbxOutputPath : option string)
    (appendActorOrMotionPath : bool) (w : World) :
  Resolution.blank fbxFilename = true ->
  Main._GetOutputFilename isActor fbxFilename fbxOutputPath appendActorOrMotionPath w
  = (Ok None, w).
Proof.
  intros H. unfold Main._GetOutputFilename. now rewrite (blank_strip _ H).
Qed.

Lemma GetOutputFilename_available (isActor : bool) (fbxFilename fbxOutputPath : option string)
    (appendActorOrMotionPath : bool) (w : World) :
  Main.strip_or_empty fbxFilename <> "" ->
  let dir := Resolution.output_dir isActor fbxOutputPath appendActorOrMotionPath in
  Resolution.available dir w = true ->
  fst (Main._GetOutputFilename isActor fbxFilename fbxOutputPath appendActorOrMotionPath w)
  = Ok (Some (PosixPath.join dir (Resolution.fbx_name (Main.strip_or_empty fbxFilename))))
  /\ Resolution.dir_exists dir
       (snd (Main._GetOutputFilename isActor fbxFilename fbxOutputPath
               appendActorOrMotionPath w)) = true.
Proof.
  intros Hf dir Hav. rewrite (GetOutputFilename_cases _ _ _ _ _ Hf). fold dir.
  unfold Resolution.available in Hav.
  destruct (Resolution.dir_exists dir w) eqn:E1; simpl; [now split|].
  simpl in Hav. apply negb_true_iff in Hav. rewrite Hav. simpl. split; [reflexivity|].
  unfold Resolution.dir_exists, Resolution.with_dir. simpl.
  apply bool_decide_eq_true_2. rewrite lookup_insert_eq. eauto.
Qed.

(** The loop of lines 169-170 carries the conversion out: nothing of the
    generator is skipped. *)
Lemma drive_relay (it : Gen unit) (w : World) :
  drive (Outcome.relay it) w = Conversion.relayed it w.
Proof.
  unfold Outcome.relay. revert w.
  induction it as [r | s k IH | X m k IH]; intros w; cbn [for_in Conversion.relayed].
  - reflexivity.
  - rewrite drive_gbind, drive_yield_status. cbn [drive_then]. now rewrite IH.
  - cbn [drive]. destruct (m w) as [[x|e] w']; [apply IH | reflexivity].
Qed.

Lemma conversion_only_alone (it : Gen unit) (isActor : bool) (w3 : World) :
  Outcome.conversion_only it isActor w3 = Conversion.alone it isActor w3.
Proof. unfold Outcome.conversion_only, Conversion.alone. now rewrite drive_relay. Qed.

Lemma calls_alone (it : Gen unit) (isActor : bool) (w3 : World) :
  w_calls (snd (Conversion.alone it isActor w3))
  = w_calls (snd (Conversion.relayed it (say "Processed output path strings" w3))).
Proof.
  unfold Conversion.alone.
  now destruct (Conversion.relayed _ _) as [[ys [[]|e]] w5].
Qed.

(** ** The claims on classification and path resolution *)

(** C3: [_CheckArmatureContainsMesh] answers [True] exactly when one of the
    direct children of the armature has type ['MESH'], [False] exactly when
    none has, and it leaves the world as it found it.  [Convert] reports that
    answer as its second event: [isActor=True] is the Actor classification,
    [isActor=False] the Motion one. *)
Theorem classification_by_mesh_children (w : World) :
  let isActor := Main._CheckArmatureContainsMesh_loop (children (w_arm w)) in
  Main._CheckArmatureContainsMesh w = (Ok isActor, w) /\
  (isActor = true <-> Exists (fun c => child_type c = "MESH") (children (w_arm w))) /\
  (isActor = false <-> Forall (fun c => child_type c <> "MESH") (children (w_arm w))) /\
  (forall ProcessActor ProcessMotion hipBoneName rootBoneName animationSampleRate
          fbxFilename fbxOutputPath appendActorOrMotionPath dumpCSVs,
      exists rest r w',
        drive (Main.Convert ProcessActor ProcessMotion hipBoneName rootBoneName
                 animationSampleRate fbxFilename fbxOutputPath
                 appendActorOrMotionPath dumpCSVs) w
        = (mkStatus "starting Convert" "default"
           :: mkStatus ("Checked Asset Type. isActor=" +:+ PyStr.str_of_bool isActor)
                "default"
           :: rest, r, w')).
Proof.
  intros isActor. subst isActor. split; [reflexivity|].
  split; [|split].
  - induction (children (w_arm w)) as [|c l IH]; simpl.
    + split; [discriminate | intros H; inversion H].
    + destruct (String.eqb (child_type c) "MESH") eqn:E.
      * apply String.eqb_eq in E. split; [intros _; now constructor | reflexivity].
      * apply String.eqb_neq in E. rewrite IH. split; [now constructor 2|].
        intros H; inversion H; [contradiction | assumption].
  - induction (children (w_arm w)) as [|c l IH]; simpl.
    + split; [constructor | reflexivity].
    + destruct (String.eqb (child_type c) "MESH") eqn:E.
      * apply String.eqb_eq in E. split; [discriminate|].
        intros H; inversion H; contradiction.
      * apply String.eqb_neq in E. rewrite IH. split; [now constructor|].
        intros H; now inversion H.
  - intros. unfold Main.Convert.
    rewrite drive_gbind, drive_yield_status. cbn [drive_then].
    rewrite drive_gbind.
    rewrite (drive_lift Main._CheckArmatureContainsMesh (say "starting Convert" w)
               (say "starting Convert" w)
               (Ok (Main._CheckArmatureContainsMesh_loop (children (w_arm w)))))
      by reflexivity.
    cbn [drive_then].
    rewrite drive_gbind, drive_yield_status. cbn [drive_then].
    destruct (drive _ _) as [[ys r] w']. simpl. eauto.
Qed.

(** C4: with [appendActorOrMotionPath] set, the export goes to the output
    directory followed by [Actor] (Actor asset) or [Motions] (Motion asset),
    and to the output directory itself when its last segment is that
    segment already; the directory is there afterwards.  File name [anim]
    and directory [out] give [out/Motions/anim.fbx] for a Motion and
    [out/Actor/anim.fbx] for an Actor, and [out/Motions] for a Motion gives
    [out/Motions/anim.fbx], not a nested [Motions/Motions].  All of it
    wherever that directory exists or can be created. *)
Theorem output_path_segment :
  (forall (isActor : bool) (fbxFilename fbxOutputPath : option string) (w : World),
      let dir := Resolution.asked_dir fbxOutputPath in
      let seg := Resolution.segment isActor in
      let out := if String.eqb (Resolution.last_segment dir) seg
                 then dir else PosixPath.join dir seg in
      Main.strip_or_empty fbxFilename <> "" ->
      Resolution.available out w = true ->
      fst (Main._GetOutputFilename isActor fbxFilename fbxOutputPath true w)
      = Ok (Some (PosixPath.join out
                    (Resolution.fbx_name (Main.strip_or_empty fbxFilename))))
      /\ Resolution.dir_exists out
           (snd (Main._GetOutputFilename isActor fbxFilename fbxOutputPath true w))
         = true) /\
  (forall w : World,
      Resolution.available "out/Motions" w = true ->
      fst (Main._GetOutputFilename false (Some "anim") (Some "out") true w)
      = Ok (Some "out/Motions/anim.fbx")) /\
  (forall w : World,
      Resolution.available "out/Actor" w = true ->
      fst (Main._GetOutputFilename true (Some "anim") (Some "out") true w)
      = Ok (Some "out/Actor/anim.fbx")) /\
  (forall w : World,
      Resolution.available "out/Motions" w = true ->
      fst (Main._GetOutputFilename false (Some "anim") (Some "out/Motions") true w)
      = Ok (Some "out/Motions/anim.fbx")).
Proof.
  assert (G : forall (isActor : bool) (fbxFilename fbxOutputPath : option string) (w : World),
      Main.strip_or_empty fbxFilename <> "" ->
      Resolution.available (Resolution.output_dir isActor fbxOutputPath true) w = true ->
      fst (Main._GetOutputFilename isActor fbxFilename fbxOutputPath true w)
      = Ok (Some (PosixPath.join (Resolution.output_dir isActor fbxOutputPath true)
                    (Resolution.fbx_name (Main.strip_or_empty fbxFilename))))).
  { intros. now apply GetOutputFilename_available. }
  split; [|split; [|split]].
  - intros isActor f d w dir seg out Hf Hav.
    exact (GetOutputFilename_available isActor f d true w Hf Hav).
  - intros w Hav. now rewrite (G false (Some "anim") (Some "out") w).
  - intros w Hav. now rewrite (G true (Some "anim") (Some "out") w).
  - intros w Hav. now rewrite (G false (Some "anim") (Some "out/Motions") w).
Qed.

Lemma output_path_segment_witness :
  fst (Main._GetOutputFilename false (Some "anim") (Some "out") true Samples.motion_scene)
  = Ok (Some "out/Motions/anim.fbx") /\
  fst (Main._GetOutputFilename true (Some " walk.blend ") (Some "assets/Actor/") true
         Samples.actor_scene)
  = Ok (Some "assets/Actor/walk.fbx").
Proof.
  split.
  - apply (proj1 (proj2 output_path_segment) Samples.motion_scene). reflexivity.
  - apply (proj1 (proj1 output_path_segment true (Some " walk.blend ")
                    (Some "assets/Actor/") Samples.actor_scene
                    ltac:(discriminate) ltac:(reflexivity))).
Defined.

(** C5: when the output directory is missing and cannot be created,
    [_GetOutputFilename] catches the failure, prints a message and answers
    [None]; [Convert] then carries the whole conversion out, every statement
    of the conversion generator being executed and every event of it passed
    on, yields its closing event and returns [1] without calling the
    exporter: the host calls of the run are those of the conversion's own
    statements, and only an exception of the conversion itself can end the
    run early. *)
Theorem directory_failure_not_fatal
    (ProcessActor : string -> Gen unit)
    (ProcessMotion : string -> string -> Q -> bool -> Gen unit)
    (hipBoneName rootBoneName : option string) (animationSampleRate : Q)
    (fbxFilename fbxOutputPath : option string)
    (appendActorOrMotionPath dumpCSVs : bool) (w : World) :
  let isActor := Main._CheckArmatureContainsMesh_loop (children (w_arm w)) in
  let dir := Resolution.output_dir isActor fbxOutputPath appendActorOrMotionPath in
  let it := Outcome.conversion_iterator ProcessActor ProcessMotion hipBoneName
              rootBoneName animationSampleRate dumpCSVs isActor in
  let run := drive (Main.Convert ProcessActor ProcessMotion hipBoneName rootBoneName
                      animationSampleRate fbxFilename fbxOutputPath
                      appendActorOrMotionPath dumpCSVs) w in
  let w3 := say (Main.failed_dir_msg dir) (Outcome.before_resolution w) in
  Main.strip_or_empty fbxFilename <> "" ->
  Resolution.dir_exists dir w = false ->
  Resolution.dir_refused dir w = true ->
  Main._GetOutputFilename isActor fbxFilename fbxOutputPath appendActorOrMotionPath w
  = (Ok None, say (Main.failed_dir_msg dir) w) /\
  run = Conversion.alone it isActor w3 /\
  w_calls (snd run)
  = w_calls (snd (Conversion.relayed it (say "Processed output path strings" w3))) /\
  (forall (ys : list Status) (w5 : World),
      Conversion.relayed it (say "Processed output path strings" w3) = (ys, Ok tt, w5) ->
      run = (Outcome.opening isActor ++ ys
               ++ [mkStatus "Completed Asset Conversion." "default"],
             Ok 1, say "Completed Asset Conversion." w5)).
Proof.
  intros isActor dir it run w3 Hf He Hr.
  assert (H1 : forall w0, Resolution.dir_exists dir w0 = false ->
                          Resolution.dir_refused dir w0 = true ->
             Main._GetOutputFilename isActor fbxFilename fbxOutputPath
               appendActorOrMotionPath w0 = (Ok None, say (Main.failed_dir_msg dir) w0)).
  { intros w0 He0 Hr0. rewrite (GetOutputFilename_cases _ _ _ _ _ Hf). fold dir.
    now rewrite He0, Hr0. }
  assert (H2 : run = Conversion.alone it isActor w3).
  { rewrite <- conversion_only_alone. apply drive_Convert_no_output. apply H1; assumption. }
  split; [now apply H1|]. split; [exact H2|]. split.
  - rewrite H2. apply calls_alone.
  - intros ys w5 Hc. rewrite H2. unfold Conversion.alone. now rewrite Hc.
Qed.

Lemma directory_failure_not_fatal_witness :
  fst (Main._GetOutputFilename false (Some "anim") (Some "out") true
         Samples.locked_motion_scene) = Ok None /\
  fst (drive (Main.Convert Samples.ProcessActor_adding_root Samples.ProcessMotion_adding_root
                None None 60 (Some "anim") (Some "out") true false)
         Samples.locked_motion_scene)
  = ([mkStatus "starting Convert" "default";
      mkStatus "Checked Asset Type. isActor=False" "default";
      mkStatus "Processed output path strings" "default";
      mkStatus "added root" "default";
      mkStatus "parented Hips" "default";
      mkStatus "Completed Asset Conversion." "default"], Ok 1) /\
  Host.by_name
    (bones (w_arm (snd (drive (Main.Convert Samples.ProcessActor_adding_root
                                 Samples.ProcessMotion_adding_root
                                 None None 60 (Some "anim") (Some "out") true false)
                          Samples.locked_motion_scene)))) "Hips"
  = Some (mkBone "Hips" (Some "root") Samples.origin) /\
  w_calls (snd (drive (Main.Convert Samples.ProcessActor_adding_root
                         Samples.ProcessMotion_adding_root
                         None None 60 (Some "anim") (Some "out") true false)
                  Samples.locked_motion_scene)) = [].
Proof.
  pose proof (directory_failure_not_fatal
                Samples.ProcessActor_adding_root Samples.ProcessMotion_adding_root
                None None 60 (Some "anim") (Some "out") true false
                Samples.locked_motion_scene
                ltac:(discriminate) ltac:(reflexivity) ltac:(reflexivity))
    as (H1 & H2 & H3 & _).
  split; [exact (f_equal fst H1)|].
  split; [exact (f_equal fst H2)|].
  split; [|exact H3].
  exact (f_equal (fun r => Host.by_name (bones (w_arm (snd r))) "Hips") H2).
Defined.

(** C9: for a file name that is [None], empty or white space only,
    [_GetOutputFilename] answers [None] whatever its other arguments and
    leaves the world, the file system included, as it was; [Convert] then
    carries the whole conversion out, every statement of the conversion
    generator being executed and every event of it passed on, and calls the
    exporter nowhere: the host calls of the run are those of the
    conversion's own statements. *)
Theorem blank_filename_skips_export
    (ProcessActor : string -> Gen unit)
    (ProcessMotion : string -> string -> Q -> bool -> Gen unit)
    (hipBoneName rootBoneName : option string) (animationSampleRate : Q)
    (fbxFilename fbxOutputPath : option string)
    (appendActorOrMotionPath dumpCSVs : bool) (w : World) :
  let isActor := Main._CheckArmatureContainsMesh_loop (children (w_arm w)) in
  let it := Outcome.conversion_iterator ProcessActor ProcessMotion hipBoneName
              rootBoneName animationSampleRate dumpCSVs isActor in
  let run := drive (Main.Convert ProcessActor ProcessMotion hipBoneName rootBoneName
                      animationSampleRate fbxFilename fbxOutputPath
                      appendActorOrMotionPath dumpCSVs) w in
  Resolution.blank fbxFilename = true ->
  (forall (anyActor : bool) (anyPath : option string) (anyAppend : bool) (w0 : World),
      Main._GetOutputFilename anyActor fbxFilename anyPath anyAppend w0 = (Ok None, w0)) /\
  run = Conversion.alone it isActor (Outcome.before_resolution w) /\
  w_calls (snd run)
  = w_calls (snd (Conversion.relayed it
                    (say "Processed output path strings" (Outcome.before_resolution w)))) /\
  (forall (ys : list Status) (w5 : World),
      Conversion.relayed it
        (say "Processed output path strings" (Outcome.before_resolution w))
      = (ys, Ok tt, w5) ->
      run = (Outcome.opening isActor ++ ys
               ++ [mkStatus "Completed Asset Conversion." "default"],
             Ok 1, say "Completed Asset Conversion." w5)).
Proof.
  intros isActor it run Hb.
  assert (H2 : run = Conversion.alone it isActor (Outcome.before_resolution w)).
  { rewrite <- conversion_only_alone. apply drive_Convert_no_output.
    now apply GetOutputFilename_blank. }
  split; [intros; now apply GetOutputFilename_blank|].
  split; [exact H2|]. split.
  - rewrite H2. apply calls_alone.
  - intros ys w5 Hc. rewrite H2. unfold Conversion.alone. now rewrite Hc.
Qed.

Lemma blank_filename_skips_export_witness :
  Main._GetOutputFilename true (Some "   ") (Some "out") true Samples.actor_scene
  = (Ok None, Samples.actor_scene) /\
  fst (drive (Main.Convert Samples.ProcessActor_adding_root Samples.ProcessMotion_adding_root
                (Some "Hips") (Some "root") 30 (Some "   ") (Some "out") true false)
         Samples.actor_scene)
  = ([mkStatus "starting Convert" "default";
      mkStatus "Checked Asset Type. isActor=True" "default";
      mkStatus "Processed output path strings" "default";
      mkStatus "added root" "default";
      mkStatus "Completed Asset Conversion." "default"], Ok 1) /\
  Host.by_name
    (bones (w_arm (snd (drive (Main.Convert Samples.ProcessActor_adding_root
                                 Samples.ProcessMotion_adding_root
                                 (Some "Hips") (Some "root") 30 (Some "   ") (Some "out")
                                 true false)
                          Samples.actor_scene)))) "root"
  = Some (mkBone "root" None Samples.origin) /\
  w_fs (snd (drive (Main.Convert Samples.ProcessActor_adding_root
                      Samples.ProcessMotion_adding_root
                      (Some "Hips") (Some "root") 30 (Some "   ") (Some "out") true false)
               Samples.actor_scene)) = w_fs Samples.actor_scene /\
  w_calls (snd (drive (Main.Convert Samples.ProcessActor_adding_root
                         Samples.ProcessMotion_adding_root
                         (Some "Hips") (Some "root") 30 (Some "   ") (Some "out") true false)
                  Samples.actor_scene)) = [].
Proof.
  pose proof (blank_filename_skips_export
                Samples.ProcessActor_adding_root Samples.ProcessMotion_adding_root
                (Some "Hips") (Some "root") 30 (Some "   ") (Some "out") true false
                Samples.actor_scene ltac:(reflexivity))
    as (H1 & H2 & H3 & _).
  split; [apply H1|].
  split; [exact (f_equal fst H2)|].
  split; [exact (f_equal (fun r => Host.by_name (bones (w_arm (snd r))) "root") H2)|].
  split; [exact (f_equal (fun r => w_fs (snd r)) H2) | exact H3].
Defined.










(** ** The stored settings *)

(** C10: where the configuration file can be written,
    [StoreFbxExportProperty(dir, p, v)] leaves in it the dictionary [{p: v}]
    and nothing else: reading [p] back gives [v], and reading any other
    property [q] raises [KeyError], whatever the file held before. *)
Theorem store_keeps_one_property (optionsFileDir property value : string) (w : World) :
  let filename := PosixPath.join optionsFileDir Common.ConfigJson in
  let w' := snd (Common.StoreFbxExportProperty optionsFileDir property value w) in
  Resolution.writable filename w = true ->
  fst (Common.StoreFbxExportProperty optionsFileDir property value w) = Ok tt /\
  nodes (w_fs w') !! filename = Some (JsonFile {[ property := value ]}) /\
  Common.GetFbxExportProperty optionsFileDir property w' = (Ok value, w') /\
  (forall q : string, q <> property ->
     Common.GetFbxExportProperty optionsFileDir q w' = (Raise (KeyError q), w')).
Proof.
  intros filename w' Hw.
  unfold Resolution.writable in Hw. apply negb_true_iff in Hw.
  assert (Hrun : Common.StoreFbxExportProperty optionsFileDir property value w
                 = (Ok tt, set_fs (mkFS (<[filename := JsonFile {[ property := value ]}]>
                                           (nodes (w_fs w))) (refused (w_fs w))) w)).
  { unfold Common.StoreFbxExportProperty, Host.open_json_dump. fold filename.
    rewrite Hw. now rewrite insert_empty. }
  subst w'. rewrite Hrun. simpl fst. simpl snd.
  set (w' := set_fs _ w).
  assert (Hl : nodes (w_fs w') !! filename = Some (JsonFile {[ property := value ]})).
  { subst w'. simpl. apply lookup_insert_eq. }
  assert (Hget : Common.GetFbxExportPropertiesObj optionsFileDir w'
                 = (Ok (Some {[ property := value ]}), w')).
  { unfold Common.GetFbxExportPropertiesObj. fold filename.
    unfold bind, Host.path_exists, gets, Host.open_json_load, ret.
    rewrite Hl. rewrite bool_decide_eq_true_2 by eauto. simpl.
    now rewrite lookup_insert_eq. }
  assert (Ht : Common.truthy (Some ({[ property := value ]} : gmap string string)) = true).
  { simpl. apply bool_decide_eq_true_2. apply map_non_empty_singleton. }
  split; [reflexivity|]. split; [exact Hl|]. split.
  - unfold Common.GetFbxExportProperty. rewrite (bind_ok _ _ _ _ _ Hget), Ht.
    now rewrite lookup_singleton_eq.
  - intros q Hq. unfold Common.GetFbxExportProperty.
    rewrite (bind_ok _ _ _ _ _ Hget), Ht.
    now rewrite lookup_singleton_ne.
Qed.

Lemma store_keeps_one_property_witness :
  Common.GetFbxExportProperty "proj" "hipBoneName" Samples.configured_scene
  = (Ok "Hips", Samples.configured_scene) /\
  fst (Common.GetFbxExportProperty "proj" "rootBoneName"
         (snd (Common.StoreFbxExportProperty "proj" "rootBoneName" "root"
                 Samples.configured_scene))) = Ok "root" /\
  fst (Common.GetFbxExportProperty "proj" "hipBoneName"
         (snd (Common.StoreFbxExportProperty "proj" "rootBoneName" "root"
                 Samples.configured_scene))) = Raise (KeyError "hipBoneName").
Proof.
  pose proof (store_keeps_one_property "proj" "rootBoneName" "root"
                Samples.configured_scene ltac:(reflexivity)) as (_ & _ & H3 & H4).
  split; [reflexivity|]. split.
  - exact (f_equal fst H3).
  - exact (f_equal fst (H4 "hipBoneName" ltac:(discriminate))).
Defined.

(** ** Texture extraction *)

Lemma CreateTexturesSubdir_run (outputDirectoryPath : string) (w : World) :
  exists w1,
    Common._CreateTexturesSubdir outputDirectoryPath "textures" w
    = (Ok (Textures.target_dir outputDirectoryPath w), w1) /\
    Textures.kept w w1 /\ w_calls w1 = w_calls w.
Proof.
  unfold Common._CreateTexturesSubdir, Textures.target_dir, Resolution.available,
    Resolution.dir_exists, Resolution.dir_refused, Textures.textures_dir, Textures.kept.
  unfold bind, gets, ret, try_except, Host.path_exists, Host.makedirs, print, modify.
  destruct (Common.hasImage_loop (w_images w)); simpl; [|eauto 10].
  destruct (bool_decide (is_Some _)) eqn:E1; simpl; [eauto 10|].
  destruct (bool_decide (_ ∈ _)) eqn:E2; simpl; rewrite ?E1; simpl; eauto 10.
Qed.

(** The body of the loop on an image whose save goes through. *)
Lemma UnpackTextures_body_saved (dir filenamePrefix : string) (i : nat) (im : Image) (w : World) :
  w_images w !! i = Some im -> has_data im = true ->
  Textures.can_save dir filenamePrefix w im = true ->
  exists w1,
    Common._UnpackTextures_body dir filenamePrefix i w = (Ok tt, w1) /\
    w_images w1 = <[i := Textures.released im]> (w_images w) /\
    w_calls w1
    = w_calls w ++ [ImageSave (image_name im) (Textures.saved_path dir filenamePrefix im)] /\
    w_arm w1 = w_arm w /\ w_mode w1 = w_mode w /\
    refused (w_fs w1) = refused (w_fs w).
Proof.
  intros Hi Hd Hs. unfold Common._UnpackTextures_body.
  unfold bind at 1. unfold Host.image_get at 1. rewrite Hi, Hd. simpl negb. cbv iota.
  unfold Textures.can_save in Hs. apply andb_true_iff in Hs. destruct Hs as [Hp Hw].
  unfold Resolution.writable in Hw. apply negb_true_iff in Hw.
  unfold Textures.saved_path in *.
  set (p := PosixPath.join dir _) in *.
  assert (Hlt : (i < length (w_images w))%nat) by (eapply lookup_lt_Some; eauto).
  unfold bind, Host.image_set_filepath, Host.image_set_filepath_raw, Host.image_save,
    Host.image_get, Host.write_data, Host.pixels_found, gets, print, modify, bind. simpl.
  rewrite Hi. simpl.
  rewrite list_lookup_insert_eq by assumption. simpl.
  rewrite list_insert_insert_eq.
  rewrite list_lookup_insert_eq by assumption. simpl.
  rewrite Hp. simpl.
  rewrite list_insert_insert_eq.
  rewrite Hw. simpl.
  rewrite list_lookup_insert_eq by assumption. simpl.
  rewrite list_insert_insert_eq.
  rewrite list_lookup_insert_eq by assumption. simpl.
  rewrite list_insert_insert_eq.
  eexists; split; [reflexivity|]. simpl. repeat split.
  unfold Textures.released. now rewrite Hp.
Qed.

Lemma saves_app (dir filenamePrefix : string) (l1 l2 : list Image) :
  Textures.saves dir filenamePrefix (l1 ++ l2)
  = Textures.saves dir filenamePrefix l1 ++ Textures.saves dir filenamePrefix l2.
Proof. unfold Textures.saves. now rewrite List.filter_app, map_app. Qed.


Lemma writable_kept (p : string) (w w1 : World) :
  Textures.kept w w1 -> Resolution.writable p w1 = Resolution.writable p w.
Proof. intros (_ & _ & _ & H). unfold Resolution.writable. now rewrite H. Qed.

Lemma UnpackTextures_body_skip (dir filenamePrefix : string) (i : nat) (im : Image) (w : World) :
  w_images w !! i = Some im -> has_data im = false ->
  Common._UnpackTextures_body dir filenamePrefix i w = (Ok tt, w).
Proof.
  intros Hi Hd. unfold Common._UnpackTextures_body, bind, Host.image_get.
  now rewrite Hi, Hd.
Qed.

(** The loop over the images still to be looked at, [rest], those before
    them being [done] with. *)
Lemma UnpackTextures_loop_saved (dir filenamePrefix : string) (rest done : list Image)
    (w : World) :
  w_images w = done ++ rest ->
  (forall im, In im rest -> has_data im = true ->
     Textures.can_save dir filenamePrefix w im = true) ->
  exists w1,
    Common.for_each (seq (length done) (length rest))
      (Common._UnpackTextures_body dir filenamePrefix) w = (Ok tt, w1) /\
    w_images w1 = done ++ Textures.after_extraction rest /\
    w_calls w1 = w_calls w ++ Textures.saves dir filenamePrefix rest /\
    w_arm w1 = w_arm w /\ w_mode w1 = w_mode w /\
    refused (w_fs w1) = refused (w_fs w).
Proof.
  revert done w. induction rest as [|im rest IH]; intros done w Himg Hs.
  - exists w. rewrite app_nil_r in Himg.
    unfold Textures.saves, Textures.after_extraction. simpl. rewrite !app_nil_r.
    repeat split. exact Himg.
  - assert (Hk : w_images w !! length done = Some im).
    { rewrite Himg. now apply list_lookup_middle. }
    cbn [length seq Common.for_each].
    destruct (has_data im) eqn:Hd.
    + destruct (UnpackTextures_body_saved dir filenamePrefix _ im w Hk Hd
                  (Hs im ltac:(now left) Hd))
        as (w1 & Hrun & Himg1 & Hc1 & Ha1 & Hm1 & Hr1).
      destruct (IH (done ++ [Textures.released im]) w1) as (w2 & Hrun2 & Himg2 & Hc2 & Ha2 & Hm2 & Hr2).
      * rewrite Himg1, Himg. rewrite insert_app_r_alt by lia.
        rewrite Nat.sub_diag. simpl. now rewrite <- app_assoc.
      * intros im' Hin Hd'. specialize (Hs im' ltac:(now right) Hd').
        unfold Textures.can_save, Resolution.writable in *. now rewrite Hr1.
      * rewrite length_app in Hrun2. simpl in Hrun2.
        replace (length done + 1)%nat with (S (length done)) in Hrun2 by lia.
        exists w2. rewrite (bind_ok _ _ _ _ _ Hrun).
        split; [exact Hrun2|].
        split; [rewrite Himg2, <- app_assoc; simpl; now rewrite Hd|].
        split; [|repeat split; congruence].
        rewrite Hc2, Hc1, <- app_assoc. unfold Textures.saves. simpl. now rewrite Hd.
    + destruct (IH (done ++ [im]) w) as (w2 & Hrun2 & Himg2 & Hc2 & Hrest).
      * rewrite Himg. now rewrite <- app_assoc.
      * intros im' Hin Hd'. apply Hs; [now right | exact Hd'].
      * rewrite length_app in Hrun2. simpl in Hrun2.
        replace (length done + 1)%nat with (S (length done)) in Hrun2 by lia.
        exists w2. rewrite (bind_ok _ _ _ _ _ (UnpackTextures_body_skip _ _ _ _ _ Hk Hd)).
        split; [exact Hrun2|].
        split; [rewrite Himg2, <- app_assoc; simpl; now rewrite Hd|].
        split; [|exact Hrest].
        rewrite Hc2. unfold Textures.saves. simpl. now rewrite Hd.
Qed.

Lemma all_saveable_In (dir filenamePrefix : string) (w : World) :
  Textures.all_saveable dir filenamePrefix w = true ->
  forall im, In im (w_images w) -> has_data im = true ->
     Textures.can_save dir filenamePrefix w im = true.
Proof.
  unfold Textures.all_saveable. rewrite forallb_forall. intros H im Hin Hd.
  specialize (H im Hin). now rewrite Hd in H.
Qed.

Lemma UnpackTextures_saved (outputDirectoryPath filenamePrefix : string) (w : World) :
  let dir := Textures.target_dir outputDirectoryPath w in
  Textures.all_saveable dir filenamePrefix w = true ->
  exists w2,
    Common._UnpackTextures outputDirectoryPath filenamePrefix w = (Ok tt, w2) /\
    w_images w2 = Textures.after_extraction (w_images w) /\
    w_calls w2 = w_calls w ++ Textures.saves dir filenamePrefix (w_images w) /\
    w_arm w2 = w_arm w /\ w_mode w2 = w_mode w.
Proof.
  intros dir Hs. unfold Common._UnpackTextures.
  destruct (CreateTexturesSubdir_run outputDirectoryPath w)
    as (w1 & Hrun & (Himg & Harm & Hmode & Href) & Hcalls).
  fold dir in Hrun. rewrite (bind_ok _ _ _ _ _ Hrun).
  unfold bind at 1. unfold gets at 1.
  destruct (UnpackTextures_loop_saved dir filenamePrefix (w_images w1) [] w1)
    as (w2 & Hrun2 & Himg2 & Hc2 & Ha2 & Hm2 & _); [reflexivity | |].
  - intros im Hin Hd. rewrite Himg in Hin.
    pose proof (all_saveable_In _ _ _ Hs im Hin Hd) as H.
    unfold Textures.can_save, Resolution.writable in *. now rewrite Href.
  - exists w2. simpl in Hrun2. split; [exact Hrun2|].
    rewrite Himg2, Hc2, Ha2, Hm2, Himg, Hcalls. now repeat split.
Qed.




(** * Further properties of the two modules *)

(** ** Root bones *)

Lemma HasOnlyOneRootBone_loop_count (l : list Bone) (k : nat) :
  Common.HasOnlyOneRootBone_loop l k = (k + length (Rig.roots l))%nat.
Proof.
  revert k. induction l as [|b l IH]; intros k; simpl; [lia|].
  unfold Rig.roots in *. simpl. unfold Rig.parentless at 1.
  destruct (bone_parent b); rewrite IH; simpl; lia.
Qed.

Lemma GetRootBone_loop_head (l : list Bone) :
  Common.GetRootBone_loop l = head (Rig.roots l).
Proof.
  induction l as [|b l IH]; simpl; [reflexivity|].
  unfold Rig.roots in *. simpl. unfold Rig.parentless at 1.
  now destruct (bone_parent b).
Qed.

Lemma HasRootMotionBone_loop_roots (l : list Bone) (name : string) :
  Common.HasRootMotionBone_loop l name = existsb (Rig.named name) (Rig.roots l).
Proof.
  induction l as [|b l IH]; simpl; [reflexivity|].
  unfold Rig.roots in *. simpl. unfold Rig.parentless at 1.
  destruct (bone_parent b); simpl; [exact IH|].
  unfold Rig.named at 1. now destruct (String.eqb (bone_name b) name).
Qed.

(** X1: [HasOnlyOneRootBone] holds exactly when one bone of the armature,
    no more and no fewer, has no parent; an armature without bones or with
    two parentless bones is rejected. *)
Theorem HasOnlyOneRootBone_counts_parentless (obj : Armature) :
  (Common.HasOnlyOneRootBone obj = true <-> length (Rig.roots (bones obj)) = 1%nat) /\
  Common.HasOnlyOneRootBone (w_arm MoreSamples.boneless_scene) = false /\
  Common.HasOnlyOneRootBone (w_arm MoreSamples.two_roots_scene) = false.
Proof.
  split; [|split; reflexivity].
  unfold Common.HasOnlyOneRootBone. rewrite HasOnlyOneRootBone_loop_count. simpl.
  apply Nat.eqb_eq.
Qed.

(** X2: [GetRootBone] returns the first parentless bone of the collection:
    every bone before it has a parent; it returns [None] exactly when every
    bone has a parent. *)
Theorem GetRootBone_first_parentless (obj : Armature) :
  match Common.GetRootBone obj with
  | Some b =>
      exists before after,
        bones obj = before ++ b :: after /\ bone_parent b = None /\
        Forall (fun x => bone_parent x <> None) before
  | None => Forall (fun x => bone_parent x <> None) (bones obj)
  end.
Proof.
  unfold Common.GetRootBone.
  induction (bones obj) as [|b l IH]; simpl; [constructor|].
  destruct (bone_parent b) eqn:E.
  - destruct (Common.GetRootBone_loop l) as [r|].
    + destruct IH as (before & after & -> & Hr & Hall).
      exists (b :: before), after. split; [reflexivity|]. split; [exact Hr|].
      constructor; [congruence | exact Hall].
    + constructor; [congruence | exact IH].
  - exists [], l. split; [reflexivity|]. split; [exact E | constructor].
Qed.

(** X3: [HasRootMotionBone] holds exactly when some parentless bone carries
    the given name; a bone of that name that has a parent does not count. *)
Theorem HasRootMotionBone_iff_named_root (obj : Armature) (rootBoneName : string) :
  Common.HasRootMotionBone obj rootBoneName = true <->
  Exists (fun b => bone_parent b = None /\ bone_name b = rootBoneName) (bones obj).
Proof.
  unfold Common.HasRootMotionBone.
  induction (bones obj) as [|b l IH]; simpl.
  - split; [discriminate | intros H; inversion H].
  - destruct (bone_parent b) eqn:E.
    + rewrite IH. split; [now constructor 2|].
      intros H; inversion H as [? ? [Hp _]|]; [congruence | assumption].
    + destruct (String.eqb (bone_name b) rootBoneName) eqn:En.
      * apply String.eqb_eq in En. split; [intros _; now constructor | reflexivity].
      * apply String.eqb_neq in En. rewrite IH. split; [now constructor 2|].
        intros H; inversion H as [? ? [_ Hn]|]; [contradiction | assumption].
Qed.

(** X4: on an armature that passes [HasOnlyOneRootBone], the three
    functions agree: [GetRootBone] returns the one parentless bone, and
    [HasRootMotionBone] holds for a name exactly when it is that bone's
    name. *)
Theorem sole_root_is_the_root_motion_bone (obj : Armature) :
  Common.HasOnlyOneRootBone obj = true ->
  exists b,
    Common.GetRootBone obj = Some b /\
    Rig.roots (bones obj) = [b] /\
    forall name, Common.HasRootMotionBone obj name = true <-> bone_name b = name.
Proof.
  unfold Common.HasOnlyOneRootBone, Common.GetRootBone, Common.HasRootMotionBone.
  rewrite HasOnlyOneRootBone_loop_count, GetRootBone_loop_head. simpl.
  intros H. apply Nat.eqb_eq in H.
  destruct (Rig.roots (bones obj)) as [|b [|c r]] eqn:E; simpl in H; try lia.
  exists b. split; [reflexivity|]. split; [reflexivity|].
  intros name. rewrite HasRootMotionBone_loop_roots, E. simpl.
  unfold Rig.named. rewrite orb_false_r. apply String.eqb_eq.
Qed.

Lemma sole_root_is_the_root_motion_bone_witness :
  Common.GetRootBone (w_arm Samples.converted_rig)
  = Some (mkBone "root" None Samples.origin) /\
  (Common.HasRootMotionBone (w_arm Samples.converted_rig) "Hips" = true <-> "root" = "Hips").
Proof.
  destruct (sole_root_is_the_root_motion_bone (w_arm Samples.converted_rig)
              ltac:(reflexivity)) as (b & Hb & Hr & Hn).
  assert (b = mkBone "root" None Samples.origin) as ->.
  { vm_compute in Hr. injection Hr as <-. reflexivity. }
  split; [exact Hb | exact (Hn "Hips")].
Defined.


(** ** Looking bones and objects up *)

Lemma mode_set_run (m : Mode) (w : World) :
  Host.mode_set m w = (Ok tt, snd (Host.mode_set m w)).
Proof. reflexivity. Qed.

(** X5: [GetPoseBoneFromArmature] is a lookup with a side effect: it always
    leaves the interaction mode on [POSE], never raises, and returns the
    first bone of the given name among the bones the armature then has, or
    [None] when none of them has that name.  Those bones are the armature's
    own, the pending edit bones when it is called in edit mode, whatever
    their order. *)
Theorem GetPoseBoneFromArmature_lookup (boneName : string) (w : World) :
  let run := CommonRest.GetPoseBoneFromArmature boneName w in
  let l := bones (w_arm (snd run)) in
  snd run = snd (Host.mode_set POSE w) /\
  w_mode (snd run) = POSE /\
  l ≡ₚ (match w_mode w with EDIT => edit_bones (w_arm w) | _ => bones (w_arm w) end) /\
  match fst run with
  | Ok (Some b) =>
      exists before after,
        l = before ++ b :: after /\ bone_name b = boneName /\
        Forall (fun x => bone_name x <> boneName) before
  | Ok None => Forall (fun x => bone_name x <> boneName) l
  | Raise _ => False
  end.
Proof.
  intros run l. subst l run. unfold CommonRest.GetPoseBoneFromArmature.
  unfold bind at 1. rewrite mode_set_run.
  set (w1 := snd (Host.mode_set POSE w)). unfold bind, gets, ret. simpl fst. simpl snd.
  split; [reflexivity|]. split; [subst w1; now destruct (w_mode w)|].
  split; [subst w1; now destruct (w_mode w)|].
  subst w1.
  match goal with |- context [bones (w_arm ?x)] => generalize (bones (w_arm x)) end.
  clear. intros l.
  induction l as [|b l IH]; simpl; [constructor|].
  destruct (String.eqb (bone_name b) boneName) eqn:E.
  - apply String.eqb_eq in E. exists [], l. split; [reflexivity|]. split; [exact E|constructor].
  - apply String.eqb_neq in E.
    destruct (CommonRest.GetPoseBoneFromArmature_loop l boneName) as [r|].
    + destruct IH as (before & after & -> & Hr & Hall).
      exists (b :: before), after. split; [reflexivity|]. split; [exact Hr|].
      now constructor.
    + now constructor.
Qed.

(** X6: [GetFirstAmature] returns the first object of the scene whose type
    is ['ARMATURE'], whatever comes after it, and [None] exactly when the
    scene has no armature. *)
Theorem GetFirstAmature_first_armature (scene_objects : list Child) :
  match CommonRest.GetFirstAmature scene_objects with
  | Some obj =>
      exists before after,
        scene_objects = before ++ obj :: after /\ child_type obj = "ARMATURE" /\
        Forall (fun x => child_type x <> "ARMATURE") before
  | None => Forall (fun x => child_type x <> "ARMATURE") scene_objects
  end.
Proof.
  unfold CommonRest.GetFirstAmature.
  induction scene_objects as [|o l IH]; simpl; [constructor|].
  destruct (String.eqb (child_type o) "ARMATURE") eqn:E.
  - apply String.eqb_eq in E. exists [], l. split; [reflexivity|]. split; [exact E|constructor].
  - apply String.eqb_neq in E.
    destruct (CommonRest.GetFirstAmature_loop l) as [r|].
    + destruct IH as (before & after & -> & Hr & Hall).
      exists (o :: before), after. split; [reflexivity|]. split; [exact Hr|].
      now constructor.
    + now constructor.
Qed.

(** ** [MakeParentBone] *)

Lemma find_from_by_name (key : string) (l : list Bone) (i : Z) :
  match Host.by_name l key with
  | Some b =>
      exists j : nat,
        Host.find_from key l i = i + Z.of_nat j /\ l !! j = Some b /\ bone_name b = key /\
        Host.by_name (take j l) key = None
  | None => Host.find_from key l i = -1
  end.
Proof.
  revert i. unfold Host.by_name.
  induction l as [|b l IH]; intros i; simpl; [reflexivity|].
  destruct (String.eqb (bone_name b) key) eqn:E.
  - exists 0%nat. apply String.eqb_eq in E. repeat split; [lia | exact E].
  - specialize (IH (i + 1)). destruct (List.find _ l) as [r|]; [|exact IH].
    destruct IH as (j & Hf & Hl & Hn & Ht). exists (S j).
    repeat split; [lia | exact Hl | exact Hn | simpl; now rewrite E].
Qed.

Lemma subscript_nat (l : list Bone) (j : nat) (b : Bone) :
  l !! j = Some b -> Host.subscript l (Z.of_nat j) = Ok (j, b).
Proof.
  intros H. pose proof (lookup_lt_Some _ _ _ H) as Hlt.
  unfold Host.subscript, Host.abs_index.
  replace (Z.of_nat j <? 0) with false by (symmetry; apply Z.ltb_ge; lia).
  replace ((0 <=? Z.of_nat j) && (Z.of_nat j <? Z.of_nat (length l))) with true
    by (symmetry; apply andb_true_intro; split; [apply Z.leb_le | apply Z.ltb_lt]; lia).
  now rewrite Nat2Z.id, H.
Qed.

Lemma subscript_lookup (l : list Bone) (i : Z) (k : nat) (b : Bone) :
  Host.subscript l i = Ok (k, b) -> l !! k = Some b.
Proof.
  unfold Host.subscript. destruct (Host.abs_index l i) as [n|]; [|discriminate].
  destruct (l !! n) eqn:E; [|discriminate]. now intros [= <- <-].
Qed.

Lemma entered_mode (w : World) : w_mode (snd (Host.mode_set EDIT w)) = EDIT.
Proof. unfold Host.mode_set, modify. simpl. now destruct (w_mode w) eqn:E. Qed.

(** The run of [MakeParentBone] once both subscripts have answered. *)
Lemma MakeParentBone_run (parentBoneName childBoneName : string) (w : World)
    (kp kc : nat) (pb cb : Bone) :
  let l := Rig.entered w in
  Host.subscript l (Host.find parentBoneName l) = Ok (kp, pb) ->
  Host.subscript l (Host.find childBoneName l) = Ok (kc, cb) ->
  exists w',
    Common.MakeParentBone parentBoneName childBoneName w = (Ok tt, w') /\
    w_mode w' = OBJECT /\
    bones (w_arm w')
    = if Host.is_self_or_ancestor (length l) l (bone_name cb) pb then l
      else <[kc := mkBone (bone_name cb) (Some (bone_name pb)) (bone_tail cb)]> l.
Proof.
  intros l Hp Hc. subst l. unfold Rig.entered in *. unfold Common.MakeParentBone.
  unfold bind at 1. rewrite mode_set_run.
  pose proof (entered_mode w) as Hm.
  remember (snd (Host.mode_set EDIT w)) as w1 eqn:Hw1. clear Hw1.
  unfold bind, gets, print, modify. simpl.
  rewrite Hp, Hc. unfold Host.set_parent, Host.mode_set, modify. simpl.
  eexists. split; [reflexivity|].
  destruct (Host.is_self_or_ancestor _ _ _ _); simpl; rewrite Hm; simpl; auto.
Qed.

(** X7: [MakeParentBone] raises in one situation only, an armature without
    bones: then it raises [IndexError] and leaves the interaction mode on
    [EDIT].  With at least one bone it ends normally whatever the two names
    are, and leaves the mode on [OBJECT]. *)
Theorem MakeParentBone_raises_only_without_bones
    (parentBoneName childBoneName : string) (w : World) :
  let run := Common.MakeParentBone parentBoneName childBoneName w in
  match Rig.entered w with
  | [] => fst run = Raise IndexError /\ w_mode (snd run) = EDIT
  | _ :: _ => fst run = Ok tt /\ w_mode (snd run) = OBJECT
  end.
Proof.
  intros run. subst run. destruct (Rig.entered w) as [|b0 l0] eqn:E.
  - unfold Rig.entered in E.
    assert (R : exists w', Common.MakeParentBone parentBoneName childBoneName w
                            = (Raise IndexError, w') /\ w_mode w' = EDIT).
    { unfold Common.MakeParentBone. unfold bind at 1. rewrite mode_set_run.
      pose proof (entered_mode w) as Hm.
      remember (snd (Host.mode_set EDIT w)) as w1 eqn:Hw1. clear Hw1.
      unfold bind, gets, print, modify. simpl.
      rewrite E. simpl. eexists. split; [reflexivity | exact Hm]. }
    destruct R as (w' & -> & Hm). now split.
  - assert (Hne : Rig.entered w <> []) by (rewrite E; discriminate).
    destruct (subscript_find parentBoneName _ Hne) as (kp & pb & Hp).
    destruct (subscript_find childBoneName _ Hne) as (kc & cb & Hc).
    destruct (MakeParentBone_run parentBoneName childBoneName w kp kc pb cb Hp Hc)
      as (w' & -> & H2 & _).
    now split.
Qed.

(** X8: whatever [MakeParentBone] does to an armature that has bones, it
    keeps the names and the tails of the bones, each as often as it was
    there, and it changes the parent of one bone at most: the bones
    afterwards are, up to their order, those on entering edit mode with one
    of them replaced by a bone of the same name and tail. *)
Theorem MakeParentBone_keeps_names_and_tails
    (parentBoneName childBoneName : string) (w : World) :
  let after := bones (w_arm (snd (Common.MakeParentBone parentBoneName childBoneName w))) in
  Rig.entered w <> [] ->
  map bone_name after ≡ₚ map bone_name (Rig.entered w) /\
  map bone_tail after ≡ₚ map bone_tail (Rig.entered w) /\
  exists (j : nat) (b b' : Bone),
    Rig.entered w !! j = Some b /\
    bone_name b' = bone_name b /\ bone_tail b' = bone_tail b /\
    after ≡ₚ <[j := b']> (Rig.entered w).
Proof.
  intros after Hne. subst after.
  destruct (subscript_find parentBoneName _ Hne) as (kp & pb & Hp).
  destruct (subscript_find childBoneName _ Hne) as (kc & cb & Hc).
  destruct (MakeParentBone_run parentBoneName childBoneName w kp kc pb cb Hp Hc)
    as (w' & Hr & _ & Hb).
  rewrite Hr. simpl snd. rewrite Hb.
  pose proof (subscript_lookup _ _ _ _ Hc) as Hl.
  destruct (Host.is_self_or_ancestor _ _ _ _).
  - split; [reflexivity|]. split; [reflexivity|].
    exists kc, cb, cb. split; [exact Hl|]. split; [reflexivity|]. split; [reflexivity|].
    now rewrite list_insert_id.
  - rewrite !list_fmap_insert. simpl.
    rewrite !list_insert_id by (rewrite list_lookup_fmap, Hl; reflexivity).
    split; [reflexivity|]. split; [reflexivity|].
    exists kc, cb, (mkBone (bone_name cb) (Some (bone_name pb)) (bone_tail cb)).
    now repeat split.
Qed.

Lemma MakeParentBone_keeps_names_and_tails_witness :
  map bone_name
    (bones (w_arm (snd (Common.MakeParentBone "root" "Hip" Samples.rig_root_first))))
  ≡ₚ ["root"; "Hips"; "Spine"].
Proof.
  exact (proj1 (MakeParentBone_keeps_names_and_tails "root" "Hip" Samples.rig_root_first
                  ltac:(discriminate))).
Defined.

(** X9: when both names are those of bones and the child is not the parent
    or one of its ancestors, [MakeParentBone] puts the first bone of the
    child's name under the parent's name and changes no other bone: the
    bones afterwards are, up to their order, those on entering edit mode
    with that one bone given its new parent; looking the child up by name
    afterwards shows the new parent. *)
Theorem MakeParentBone_reparents_named_child
    (parentBoneName childBoneName : string) (w : World) (pb cb : Bone) :
  let l := Rig.entered w in
  let after := bones (w_arm (snd (Common.MakeParentBone parentBoneName childBoneName w))) in
  Host.by_name l parentBoneName = Some pb ->
  Host.by_name l childBoneName = Some cb ->
  Host.is_self_or_ancestor (length l) l childBoneName pb = false ->
  fst (Common.MakeParentBone parentBoneName childBoneName w) = Ok tt /\
  (exists j : nat,
      l !! j = Some cb /\ Host.by_name (take j l) childBoneName = None /\
      after ≡ₚ <[j := mkBone childBoneName (Some parentBoneName) (bone_tail cb)]> l) /\
  Host.by_name after childBoneName
  = Some (mkBone childBoneName (Some parentBoneName) (bone_tail cb)).
Proof.
  intros l after Hp Hc Hcycle. subst after.
  pose proof (find_from_by_name parentBoneName l 0) as Fp. rewrite Hp in Fp.
  destruct Fp as (jp & Fp & Lp & Np & _).
  pose proof (find_from_by_name childBoneName l 0) as Fc. rewrite Hc in Fc.
  destruct Fc as (jc & Fc & Lc & Nc & Tc).
  assert (Sp : Host.subscript l (Host.find parentBoneName l) = Ok (jp, pb)).
  { unfold Host.find. rewrite Fp. simpl. now apply subscript_nat. }
  assert (Sc : Host.subscript l (Host.find childBoneName l) = Ok (jc, cb)).
  { unfold Host.find. rewrite Fc. simpl. now apply subscript_nat. }
  destruct (MakeParentBone_run parentBoneName childBoneName w jp jc pb cb Sp Sc)
    as (w' & -> & _ & H3).
  simpl fst. simpl snd.
  fold l in H3. rewrite Nc, Np, Hcycle in H3. rewrite H3.
  split; [reflexivity|]. split; [exists jc; now repeat split|].
  pose proof (lookup_lt_Some _ _ _ Lc) as Hlt.
  rewrite <- (take_drop_middle l jc cb Lc) at 1.
  rewrite insert_app_r_alt by (rewrite length_take; lia).
  rewrite length_take. replace (jc - jc `min` length l)%nat with 0%nat by lia.
  simpl. unfold Host.by_name in *.
  clear -Tc. induction (take jc l) as [|x t IH]; simpl in *.
  - now rewrite String.eqb_refl.
  - destruct (String.eqb (bone_name x) childBoneName); [discriminate | now apply IH].
Qed.

Lemma MakeParentBone_reparents_named_child_witness :
  Host.by_name
    (bones (w_arm (snd (Common.MakeParentBone "root" "Hips" Samples.rig_root_last)))) "Hips"
  = Some (mkBone "Hips" (Some "root") Samples.origin).
Proof.
  exact (proj2 (proj2 (MakeParentBone_reparents_named_child "root" "Hips"
                         Samples.rig_root_last
                         (mkBone "root" None Samples.origin)
                         (mkBone "Hips" None Samples.origin)
                         ltac:(reflexivity) ltac:(reflexivity) ltac:(reflexivity)))).
Defined.


(** ** More on path resolution *)

(** X10: [_GetOutputFilename] never raises, whatever its arguments and the
    state of the file system; all it may do to the world is print a message
    and add the output directory: the scene, the host calls and every file
    and directory that was there stay as they were. *)
Theorem GetOutputFilename_never_raises (isActor : bool)
    (fbxFilename fbxOutputPath : option string) (appendActorOrMotionPath : bool) (w : World) :
  exists (o : option string) (w' : World),
    Main._GetOutputFilename isActor fbxFilename fbxOutputPath appendActorOrMotionPath w
    = (Ok o, w') /\
    w_images w' = w_images w /\ w_arm w' = w_arm w /\ w_mode w' = w_mode w /\
    w_calls w' = w_calls w /\ refused (w_fs w') = refused (w_fs w) /\
    forall (p : string) (n : Node),
      nodes (w_fs w) !! p = Some n -> nodes (w_fs w') !! p = Some n.
Proof.
  destruct (String.eqb (Main.strip_or_empty fbxFilename) "") eqn:E.
  - exists None, w. unfold Main._GetOutputFilename. rewrite E. repeat split; auto.
  - apply String.eqb_neq in E. rewrite (GetOutputFilename_cases _ _ _ _ _ E).
    set (dir := Resolution.output_dir _ _ _).
    destruct (Resolution.dir_exists dir w) eqn:E1.
    + eexists _, w. repeat split; auto.
    + destruct (Resolution.dir_refused dir w).
      * eexists _, _. split; [reflexivity|]. repeat split; auto.
      * eexists _, _. split; [reflexivity|]. repeat split; auto.
        intros p n Hp. unfold Resolution.with_dir. simpl.
        rewrite lookup_insert_ne; [exact Hp|].
        intros <-. unfold Resolution.dir_exists in E1.
        apply bool_decide_eq_false in E1. apply E1. eauto.
Qed.

Lemma GetOutputFilename_never_raises_witness :
  exists (o : option string) (w' : World),
    Main._GetOutputFilename false (Some "anim") (Some "proj") true Samples.configured_scene
    = (Ok o, w') /\
    nodes (w_fs w') !! "proj/lumbermixalot-config.json"
    = Some (JsonFile {[ "hipBoneName" := "Hips" ]}).
Proof.
  destruct (GetOutputFilename_never_raises false (Some "anim") (Some "proj") true
              Samples.configured_scene) as (o & w' & H & _ & _ & _ & _ & _ & Hn).
  exists o, w'. split; [exact H|]. apply Hn. reflexivity.
Defined.

(** X11: path resolution can be repeated: once [_GetOutputFilename] has
    answered a path, the same call on the world it left answers the same
    path and changes nothing. *)
Theorem GetOutputFilename_repeatable (isActor : bool)
    (fbxFilename fbxOutputPath : option string) (appendActorOrMotionPath : bool)
    (w : World) (path : string) :
  let first := Main._GetOutputFilename isActor fbxFilename fbxOutputPath
                 appendActorOrMotionPath w in
  fst first = Ok (Some path) ->
  Main._GetOutputFilename isActor fbxFilename fbxOutputPath appendActorOrMotionPath
    (snd first) = (Ok (Some path), snd first).
Proof.
  intros first H. subst first.
  destruct (String.eqb (Main.strip_or_empty fbxFilename) "") eqn:E.
  { unfold Main._GetOutputFilename in H. rewrite E in H. discriminate. }
  apply String.eqb_neq in E.
  rewrite (GetOutputFilename_cases _ _ _ _ w E) in *.
  set (dir := Resolution.output_dir _ _ _) in *.
  destruct (Resolution.dir_exists dir w) eqn:E1; simpl in *.
  - injection H as <-.
    rewrite (GetOutputFilename_cases _ _ _ _ w E). fold dir. now rewrite E1.
  - destruct (Resolution.dir_refused dir w); simpl in *; [discriminate|].
    injection H as <-.
    rewrite (GetOutputFilename_cases _ _ _ _ _ E). fold dir.
    assert (Resolution.dir_exists dir (Resolution.with_dir dir w) = true) as ->.
    { unfold Resolution.dir_exists, Resolution.with_dir. simpl.
      apply bool_decide_eq_true_2. rewrite lookup_insert_eq. eauto. }
    reflexivity.
Qed.

Lemma GetOutputFilename_repeatable_witness :
  Main._GetOutputFilename false (Some "anim") (Some "out") true
    (snd (Main._GetOutputFilename false (Some "anim") (Some "out") true
            Samples.motion_scene))
  = (Ok (Some "out/Motions/anim.fbx"),
     snd (Main._GetOutputFilename false (Some "anim") (Some "out") true
            Samples.motion_scene)).
Proof.
  exact (GetOutputFilename_repeatable false (Some "anim") (Some "out") true
           Samples.motion_scene "out/Motions/anim.fbx" ltac:(reflexivity)).
Defined.

(** ** [ExportFBX] *)

Lemma MakeFilePathForFBX_cases (fbxFilename fbxOutputPath : string) (w : World) :
  Common._MakeFilePathForFBX fbxFilename fbxOutputPath w
  = if Resolution.dir_exists fbxOutputPath w
    then (Ok (Some (PosixPath.join fbxOutputPath (Resolution.fbx_name fbxFilename))), w)
    else if Resolution.dir_refused fbxOutputPath w
         then (Ok None,
               say ("Failed to create output dir: '" +:+ fbxOutputPath +:+ "'") w)
         else (Ok (Some (PosixPath.join fbxOutputPath (Resolution.fbx_name fbxFilename))),
               Resolution.with_dir fbxOutputPath w).
Proof.
  unfold Common._MakeFilePathForFBX, Resolution.fbx_name.
  destruct (PosixPath.splitext fbxFilename) as [root ext]. simpl fst.
  unfold Resolution.dir_exists, Resolution.dir_refused, Resolution.with_dir.
  unfold bind, Host.path_exists, gets, try_except, Host.makedirs, print, modify, ret.
  destruct (bool_decide (is_Some (nodes (w_fs w) !! fbxOutputPath))) eqn:E1; simpl;
    [reflexivity|].
  destruct (bool_decide (fbxOutputPath ∈ refused (w_fs w))) eqn:E2; simpl;
    rewrite ?E1; reflexivity.
Qed.

(** X12: when the output directory is missing and cannot be created,
    [ExportFBX] raises [Exception("Undefined output filename")] after the
    message of [_MakeFilePathForFBX]: the exporter is not called, nothing is
    written, and the textures are not looked at, whatever [unpackTextures]
    says. *)
Theorem ExportFBX_without_directory (fbxFilename fbxOutputPath : string)
    (unpackTextures : bool) (w : World) :
  Resolution.dir_exists fbxOutputPath w = false ->
  Resolution.dir_refused fbxOutputPath w = true ->
  Common.ExportFBX fbxFilename fbxOutputPath unpackTextures w
  = (Raise (Exception_ "Undefined output filename"),
     say ("Failed to create output dir: '" +:+ fbxOutputPath +:+ "'") w).
Proof.
  intros He Hr. unfold Common.ExportFBX.
  assert (H : Common._MakeFilePathForFBX fbxFilename fbxOutputPath w
              = (Ok None, say ("Failed to create output dir: '" +:+ fbxOutputPath +:+ "'") w)).
  { rewrite MakeFilePathForFBX_cases. now rewrite He, Hr. }
  now rewrite (bind_ok _ _ _ _ _ H).
Qed.

Lemma ExportFBX_without_directory_witness :
  Common.ExportFBX "anim" "out/Motions" true Samples.locked_motion_scene
  = (Raise (Exception_ "Undefined output filename"),
     say "Failed to create output dir: 'out/Motions'" Samples.locked_motion_scene).
Proof.
  exact (ExportFBX_without_directory "anim" "out/Motions" true Samples.locked_motion_scene
           ltac:(reflexivity) ltac:(reflexivity)).
Defined.

(** X13: where the output directory is there or can be made and the file
    can be written, [ExportFBX] without texture extraction calls the
    exporter once, on the path it returns (the directory joined with the
    name carrying [.fbx]), without the [path_mode='COPY'] option, and leaves
    the scene as it was. *)
Theorem ExportFBX_exports_once (fbxFilename fbxOutputPath : string) (w : World) :
  let path := PosixPath.join fbxOutputPath (Resolution.fbx_name fbxFilename) in
  let run := Common.ExportFBX fbxFilename fbxOutputPath false w in
  Resolution.available fbxOutputPath w = true ->
  Resolution.writable path w = true ->
  fst run = Ok path /\
  w_calls (snd run) = w_calls w ++ [ExportSceneFbx path false] /\
  nodes (w_fs (snd run)) !! path = Some DataFile /\
  w_images (snd run) = w_images w /\ w_arm (snd run) = w_arm w /\
  w_mode (snd run) = w_mode w.
Proof.
  intros path run Hav Hw. subst run.
  unfold Resolution.available in Hav. unfold Resolution.writable in Hw.
  apply negb_true_iff in Hw.
  assert (H : exists w1,
             Common._MakeFilePathForFBX fbxFilename fbxOutputPath w = (Ok (Some path), w1)
             /\ w_images w1 = w_images w /\ w_arm w1 = w_arm w /\ w_mode w1 = w_mode w
             /\ w_calls w1 = w_calls w /\ refused (w_fs w1) = refused (w_fs w)).
  { rewrite MakeFilePathForFBX_cases. fold path.
    destruct (Resolution.dir_exists fbxOutputPath w); simpl in *.
    - exists w. repeat split.
    - apply negb_true_iff in Hav. rewrite Hav. eexists. repeat split. }
  destruct H as (w1 & H1 & Hi & Ha & Hm & Hc & Hr).
  unfold Common.ExportFBX. rewrite (bind_ok _ _ _ _ _ H1).
  unfold Common._ExportFbxInternal, Host.export_scene_fbx, Host.write_data.
  unfold bind, print, modify, ret. rewrite Hr, Hw. simpl.
  rewrite Hi, Ha, Hm, Hc. repeat split. apply lookup_insert_eq.
Qed.

Lemma ExportFBX_exports_once_witness :
  fst (Common.ExportFBX "walk.blend" "out" false Samples.textured_scene) = Ok "out/walk.fbx" /\
  w_calls (snd (Common.ExportFBX "walk.blend" "out" false Samples.textured_scene))
  = [ExportSceneFbx "out/walk.fbx" false].
Proof.
  destruct (ExportFBX_exports_once "walk.blend" "out" Samples.textured_scene
              ltac:(reflexivity) ltac:(reflexivity)) as (H1 & H2 & _).
  split; [exact H1 | exact H2].
Defined.


Lemma after_extraction_same_paths (l : list Image) :
  Forall2 Textures.same_paths (Textures.after_extraction l) l.
Proof.
  induction l as [|im l IH]; simpl; constructor; [|exact IH].
  destruct (has_data im); now repeat split.
Qed.

(** X14: with texture extraction, [ExportFBX] exports first and extracts
    afterwards, under the file name without its extension as prefix: where
    the export can be written and every save goes through (the pixels are
    packed with the document and the file can be written), the host calls
    are the export followed by one save for each image that has data, and
    the images end under their names and with their paths as they were. *)
Theorem ExportFBX_then_textures (fbxFilename fbxOutputPath : string) (w : World) :
  let path := PosixPath.join fbxOutputPath (Resolution.fbx_name fbxFilename) in
  let filenamePrefix := fst (PosixPath.splitext fbxFilename) in
  let w1 := snd (Common._ExportFbxInternal path
                   (snd (Common._MakeFilePathForFBX fbxFilename fbxOutputPath w))) in
  let dir := Textures.target_dir fbxOutputPath w1 in
  let run := Common.ExportFBX fbxFilename fbxOutputPath true w in
  Resolution.available fbxOutputPath w = true ->
  Resolution.writable path w = true ->
  Textures.all_saveable dir filenamePrefix w1 = true ->
  fst run = Ok path /\
  w_calls (snd run)
  = w_calls w ++ ExportSceneFbx path false :: Textures.saves dir filenamePrefix (w_images w) /\
  Forall2 Textures.same_paths (w_images (snd run)) (w_images w).
Proof.
  intros path filenamePrefix w1 dir run Hav Hw Hall. subst run.
  unfold Resolution.available in Hav. unfold Resolution.writable in Hw.
  apply negb_true_iff in Hw.
  assert (H : exists w0,
             Common._MakeFilePathForFBX fbxFilename fbxOutputPath w = (Ok (Some path), w0)
             /\ w_images w0 = w_images w /\ w_calls w0 = w_calls w
             /\ refused (w_fs w0) = refused (w_fs w)).
  { rewrite MakeFilePathForFBX_cases. fold path.
    destruct (Resolution.dir_exists fbxOutputPath w); simpl in *.
    - exists w. repeat split.
    - apply negb_true_iff in Hav. rewrite Hav. eexists. repeat split. }
  destruct H as (w0 & H0 & Hi & Hc & Hr).
  assert (H1 : Common._ExportFbxInternal path w0 = (Ok tt, w1)
               /\ w_images w1 = w_images w
               /\ w_calls w1 = w_calls w ++ [ExportSceneFbx path false]).
  { subst w1. rewrite H0. simpl snd.
    unfold Common._ExportFbxInternal, Host.export_scene_fbx, Host.write_data.
    unfold bind, print, modify, ret. rewrite Hr, Hw. simpl. rewrite Hi, Hc. repeat split. }
  destruct H1 as (H1 & Hi1 & Hc1). clearbody w1.
  destruct (UnpackTextures_saved fbxOutputPath filenamePrefix w1 Hall)
    as (w2 & H2 & Hi2 & Hc2 & _).
  unfold Common.ExportFBX. rewrite (bind_ok _ _ _ _ _ H0), (bind_ok _ _ _ _ _ H1).
  subst filenamePrefix.
  destruct (PosixPath.splitext fbxFilename) as [root ext]. simpl fst in *.
  rewrite (bind_ok _ _ _ _ _ H2). unfold ret. simpl.
  split; [reflexivity|]. split.
  - rewrite Hc2, Hc1, Hi1. fold dir. now rewrite <- app_assoc.
  - rewrite Hi2, Hi1. apply after_extraction_same_paths.
Qed.

Lemma ExportFBX_then_textures_witness :
  w_calls (snd (Common.ExportFBX "anim.fbx" "out" true Samples.textured_scene))
  = [ExportSceneFbx "out/anim.fbx" false; ImageSave "skin" "out/textures/anim_skin.png"].
Proof.
  exact (proj1 (proj2 (ExportFBX_then_textures "anim.fbx" "out" Samples.textured_scene
                         ltac:(reflexivity) ltac:(reflexivity) ltac:(reflexivity)))).
Defined.

(** ** More on texture extraction *)

Lemma hasImage_loop_false (l : list Image) :
  Common.hasImage_loop l = false <-> Forall (fun im => has_data im = false) l.
Proof.
  induction l as [|im l IH]; simpl; [split; [constructor | reflexivity]|].
  destruct (has_data im) eqn:E; simpl.
  - split; [discriminate | intros H; inversion H; congruence].
  - rewrite IH. split; [now constructor | intros H; now inversion H].
Qed.

(** X15: [_CreateTexturesSubdir] never raises.  Without an image that has
    data it returns the output directory and creates nothing; with one, it
    returns the subdirectory, which then exists, or, when the subdirectory
    is missing and cannot be created, the output directory. *)
Theorem CreateTexturesSubdir_outcomes (outputDirectoryPath subdirName : string) (w : World) :
  let finalDir := PosixPath.join outputDirectoryPath subdirName in
  exists (r : string) (w' : World),
    Common._CreateTexturesSubdir outputDirectoryPath subdirName w = (Ok r, w') /\
    if Common.hasImage_loop (w_images w)
    then (r = finalDir /\ Resolution.dir_exists finalDir w' = true) \/
         (r = outputDirectoryPath /\ Resolution.available finalDir w = false)
    else r = outputDirectoryPath /\ w' = w.
Proof.
  intros finalDir. unfold Common._CreateTexturesSubdir.
  unfold bind, gets, ret, try_except, Host.path_exists, Host.makedirs, print, modify.
  unfold Resolution.available, Resolution.dir_exists, Resolution.dir_refused.
  fold finalDir.
  destruct (Common.hasImage_loop (w_images w)); simpl; [|eauto].
  destruct (bool_decide (is_Some (nodes (w_fs w) !! finalDir))) eqn:E1; simpl.
  - eexists _, _. split; [reflexivity|]. left. now split.
  - destruct (bool_decide (finalDir ∈ refused (w_fs w))) eqn:E2; simpl; rewrite ?E1; simpl.
    + eexists _, _. split; [reflexivity|]. right. now split.
    + eexists _, _. split; [reflexivity|]. left. split; [reflexivity|]. simpl.
      apply bool_decide_eq_true_2. rewrite lookup_insert_eq. eauto.
Qed.

(** X16: when no image has data, [_UnpackTextures] does nothing at all: no
    directory is created, nothing is saved or printed, and the world is
    exactly what it was. *)
Theorem UnpackTextures_without_images (outputDirectoryPath filenamePrefix : string)
    (w : World) :
  Forall (fun im => has_data im = false) (w_images w) ->
  Common._UnpackTextures outputDirectoryPath filenamePrefix w = (Ok tt, w).
Proof.
  intros Hall. pose proof (proj2 (hasImage_loop_false _) Hall) as Hh.
  unfold Common._UnpackTextures, Common._CreateTexturesSubdir.
  unfold bind at 1. unfold bind at 1. unfold gets at 1. rewrite Hh. simpl.
  unfold bind at 1. unfold gets at 1.
  assert (G : forall m k, (k + m = length (w_images w))%nat ->
              Common.for_each (seq k m)
                (Common._UnpackTextures_body outputDirectoryPath filenamePrefix) w
              = (Ok tt, w)).
  { induction m as [|m IH]; intros k Hk; [reflexivity|]. simpl.
    destruct (lookup_lt_is_Some_2 (w_images w) k) as [im Him]; [lia|].
    assert (Hd : has_data im = false).
    { rewrite Forall_forall in Hall. apply Hall.
      eapply list_elem_of_lookup_2; eauto. }
    rewrite (bind_ok _ _ _ _ _ (UnpackTextures_body_skip _ _ _ _ _ Him Hd)).
    apply IH. lia. }
  apply G. reflexivity.
Qed.

Lemma UnpackTextures_without_images_witness :
  Common._UnpackTextures "out" "anim" MoreSamples.render_only_scene
  = (Ok tt, MoreSamples.render_only_scene).
Proof.
  apply (UnpackTextures_without_images "out" "anim" MoreSamples.render_only_scene).
  repeat constructor.
Defined.

Lemma for_each_app {A} (l1 l2 : list A) (body : A -> M unit) (w : World) :
  Common.for_each (l1 ++ l2) body w
  = bind (Common.for_each l1 body) (fun _ => Common.for_each l2 body) w.
Proof.
  revert w. induction l1 as [|x l1 IH]; intros w; simpl; [reflexivity|].
  unfold bind. destruct (body x w) as [[[]|e] w1]; [|reflexivity].
  rewrite IH. reflexivity.
Qed.

(** The loop passes over images without data. *)
Lemma UnpackTextures_loop_skip (dir filenamePrefix : string) (m k : nat) (w : World) :
  (k + m <= length (w_images w))%nat ->
  (forall j imj, (j < k + m)%nat -> w_images w !! j = Some imj -> has_data imj = false) ->
  Common.for_each (seq k m) (Common._UnpackTextures_body dir filenamePrefix) w = (Ok tt, w).
Proof.
  revert k. induction m as [|m IH]; intros k Hlen Hno; [reflexivity|]. simpl.
  destruct (lookup_lt_is_Some_2 (w_images w) k) as [im Him]; [lia|].
  rewrite (bind_ok _ _ _ _ _
             (UnpackTextures_body_skip _ _ _ _ _ Him (Hno k im ltac:(lia) Him))).
  apply IH; [lia|]. intros j imj Hj. apply Hno. lia.
Qed.

(** Making the subdirectory puts no data file anywhere. *)
Lemma CreateTexturesSubdir_no_file (outputDirectoryPath : string) (w : World) (p : string) :
  Host.file_at p w = false ->
  Host.file_at p (snd (Common._CreateTexturesSubdir outputDirectoryPath "textures" w)) = false.
Proof.
  intros Hp. unfold Common._CreateTexturesSubdir.
  unfold bind, gets, ret, try_except, Host.path_exists, Host.makedirs, print, modify.
  destruct (Common.hasImage_loop (w_images w)); simpl; [|exact Hp].
  destruct (bool_decide (is_Some _)) eqn:E1; simpl; [exact Hp|].
  destruct (bool_decide (_ ∈ _)) eqn:E2; simpl; rewrite ?E1; simpl; [exact Hp|].
  unfold Host.file_at in *. simpl.
  destruct (decide (PosixPath.join outputDirectoryPath "textures" = p)) as [<-|Hne].
  - now rewrite lookup_insert_eq.
  - now rewrite lookup_insert_ne.
Qed.

(** The body of the loop on an image for which the host finds no pixels
    once the paths are set. *)
Lemma UnpackTextures_body_no_pixels (dir filenamePrefix : string) (i : nat) (im : Image)
    (w : World) :
  let target := Textures.saved_path dir filenamePrefix im in
  w_images w !! i = Some im -> has_data im = true -> packed_file im = false ->
  Host.file_at target w = false ->
  exists what,
    Common._UnpackTextures_body dir filenamePrefix i w
    = (Raise (RuntimeError what),
       set_images (<[i := mkImage (image_name im) false target target false]> (w_images w)) w).
Proof.
  intros target Hi Hd Hp Hf. subst target. unfold Common._UnpackTextures_body.
  unfold bind at 1. unfold Host.image_get at 1. rewrite Hi, Hd. simpl negb. cbv iota.
  unfold Textures.saved_path in *.
  set (p := PosixPath.join dir _) in *.
  assert (Hlt : (i < length (w_images w))%nat) by (eapply lookup_lt_Some; eauto).
  unfold bind, Host.image_set_filepath, Host.image_set_filepath_raw, Host.image_save,
    Host.image_get, Host.pixels_found, gets, raise, modify, bind. simpl.
  rewrite Hi. simpl.
  rewrite list_lookup_insert_eq by assumption. simpl.
  rewrite list_insert_insert_eq.
  rewrite list_lookup_insert_eq by assumption. simpl.
  rewrite Hp. simpl.
  match goal with
  | |- context [Host.file_at p ?x] => change (Host.file_at p x) with (Host.file_at p w)
  end.
  rewrite Hf. simpl. eexists. reflexivity.
Qed.

(** X17: a save for which the host finds no pixels ends [_UnpackTextures]
    with the exception of the host, and the restoring statements are not
    reached.  That is what happens to the first image with data when it is
    not packed and no data file is at its output path: nothing is saved,
    the image keeps the output path in [filepath] and [filepath_raw] and its
    pixels are no longer in memory; the other images are left alone. *)
Theorem UnpackTextures_failed_save_keeps_output_path
    (outputDirectoryPath filenamePrefix : string) (w : World) (i : nat) (im : Image) :
  let dir := Textures.target_dir outputDirectoryPath w in
  let target := Textures.saved_path dir filenamePrefix im in
  let run := Common._UnpackTextures outputDirectoryPath filenamePrefix w in
  w_images w !! i = Some im ->
  has_data im = true ->
  packed_file im = false ->
  Host.file_at target w = false ->
  (forall j imj, (j < i)%nat -> w_images w !! j = Some imj -> has_data imj = false) ->
  (exists what, fst run = Raise (RuntimeError what)) /\
  w_images (snd run)
  = <[i := mkImage (image_name im) false target target false]> (w_images w) /\
  w_calls (snd run) = w_calls w.
Proof.
  intros dir target run Hi Hd Hp Hf Hbefore. subst run.
  pose proof (lookup_lt_Some _ _ _ Hi) as Hlt.
  assert (R : exists what w3,
             Common._UnpackTextures outputDirectoryPath filenamePrefix w
             = (Raise (RuntimeError what), w3) /\
             w_images w3
             = <[i := mkImage (image_name im) false target target false]> (w_images w) /\
             w_calls w3 = w_calls w).
  { pose proof (CreateTexturesSubdir_no_file outputDirectoryPath w target Hf) as Hf1.
    destruct (CreateTexturesSubdir_run outputDirectoryPath w)
      as (w1 & Hrun & Hkept & Hcalls).
    fold dir in Hrun. rewrite Hrun in Hf1. simpl snd in Hf1.
    unfold Common._UnpackTextures. rewrite (bind_ok _ _ _ _ _ Hrun).
    unfold bind at 1. unfold gets at 1.
    pose proof Hkept as (Himg & _).
    replace (seq 0 (length (w_images w1)))
      with (seq 0 i ++ [i] ++ seq (S i) (length (w_images w1) - S i)).
    2:{ rewrite Himg. change ([i] ++ seq (S i) (length (w_images w) - S i))
          with (seq i (S (length (w_images w) - S i))).
        rewrite <- seq_app. f_equal. lia. }
    rewrite for_each_app.
    rewrite (bind_ok _ _ _ _ _ (UnpackTextures_loop_skip dir filenamePrefix i 0 w1
                                   ltac:(rewrite Himg; lia)
                                   ltac:(intros j imj Hj Hl; rewrite Himg in Hl; eauto))).
    assert (Hi1 : w_images w1 !! i = Some im) by now rewrite Himg.
    destruct (UnpackTextures_body_no_pixels dir filenamePrefix i im w1 Hi1 Hd Hp Hf1)
      as (what & Hbody).
    rewrite for_each_app. simpl Common.for_each at 1.
    rewrite (bind_raise _ _ _ _ _ (bind_raise _ _ _ _ _ Hbody)).
    exists what. eexists. split; [reflexivity|]. simpl. fold target. rewrite Himg.
    split; [reflexivity | exact Hcalls]. }
  destruct R as (what & w3 & -> & H1 & H2). simpl fst. simpl snd.
  split; [now exists what|]. now split.
Qed.

Lemma UnpackTextures_failed_save_keeps_output_path_witness :
  (exists what,
     fst (Common._UnpackTextures "out" "anim" MoreSamples.linked_textures_scene)
     = Raise (RuntimeError what)) /\
  w_images (snd (Common._UnpackTextures "out" "anim" MoreSamples.linked_textures_scene))
  = [mkImage "Render Result" false "" "" false;
     mkImage "skin" false "out/textures/anim_skin.png" "out/textures/anim_skin.png" false;
     mkImage "hair" true "//textures/hair.png" "//textures/hair.png" false] /\
  w_calls (snd (Common._UnpackTextures "out" "anim" MoreSamples.linked_textures_scene)) = [].
Proof.
  apply (UnpackTextures_failed_save_keeps_output_path "out" "anim"
           MoreSamples.linked_textures_scene 1
           (mkImage "skin" true "//textures/skin.png" "//textures/skin.png" false)
           ltac:(reflexivity) ltac:(reflexivity) ltac:(reflexivity) ltac:(reflexivity)).
  intros [|j] imj Hj Hl; [|lia]. injection Hl as <-. reflexivity.
Defined.

(** X27: even when every save goes through, the images do not end as they
    were.  Each image is back under its name and with its two paths, but the
    assignments to [filepath] have made the host let go of the pixels: no
    image has its data in memory after the extraction, so a scene in which
    an image had data is changed by it. *)
Theorem UnpackTextures_releases_pixels (outputDirectoryPath filenamePrefix : string)
    (w : World) :
  let dir := Textures.target_dir outputDirectoryPath w in
  let run := Common._UnpackTextures outputDirectoryPath filenamePrefix w in
  Textures.all_saveable dir filenamePrefix w = true ->
  fst run = Ok tt /\
  Forall2 Textures.same_paths (w_images (snd run)) (w_images w) /\
  Forall (fun im => has_data im = false) (w_images (snd run)) /\
  (Common.hasImage_loop (w_images w) = true -> w_images (snd run) <> w_images w).
Proof.
  intros dir run Hs.
  destruct (UnpackTextures_saved outputDirectoryPath filenamePrefix w Hs)
    as (w2 & Hrun & Himg & _).
  subst run. rewrite Hrun. simpl fst. simpl snd. rewrite Himg.
  assert (Hno : Forall (fun im => has_data im = false)
                  (Textures.after_extraction (w_images w))).
  { clear. generalize (w_images w). intros l.
    induction l as [|im l IH]; simpl; [constructor|].
    constructor; [|exact IH].
    destruct (has_data im) eqn:E; [reflexivity | exact E]. }
  split; [reflexivity|]. split; [apply after_extraction_same_paths|].
  split; [exact Hno|].
  intros Hh Heq. rewrite Heq in Hno.
  apply hasImage_loop_false in Hno. congruence.
Qed.

Lemma UnpackTextures_releases_pixels_witness :
  w_images (snd (Common._UnpackTextures "out" "anim" Samples.textured_scene))
  <> w_images Samples.textured_scene /\
  Forall2 Textures.same_paths
    (w_images (snd (Common._UnpackTextures "out" "anim" Samples.textured_scene)))
    (w_images Samples.textured_scene).
Proof.
  destruct (UnpackTextures_releases_pixels "out" "anim" Samples.textured_scene
              ltac:(reflexivity)) as (_ & H2 & _ & H4).
  split; [apply H4; reflexivity | exact H2].
Defined.


(** ** Clearing leftover data *)

Lemma keys_loop_map {A} (key : A -> string) (l : list A) (acc : list string) :
  CommonRest.keys_loop key l acc = acc ++ map key l.
Proof.
  revert acc. induction l as [|x l IH]; intros acc; simpl; [now rewrite app_nil_r|].
  rewrite IH. now rewrite <- app_assoc.
Qed.

Lemma ClearOldTextureData_loop (l : list Image) (w : World) :
  w_images w = l ->
  exists w',
    Common.for_each (map image_name l)
      (fun name =>
         bind (CommonRest.collection_subscript image_name w_images name)
           (fun item =>
              bind (CommonRest.collection_remove w_images set_images item)
                (fun _ => print ("Removed leftover " +:+ "texture" +:+ " '" +:+ name +:+ "'"))))
      w = (Ok tt, w') /\
    w_images w' = [] /\ w_fs w' = w_fs w /\ w_arm w' = w_arm w /\
    w_mode w' = w_mode w /\ w_calls w' = w_calls w /\
    length (w_stdout w') = (length (w_stdout w) + length l)%nat.
Proof.
  revert w. induction l as [|x l IH]; intros w Hw.
  - exists w. simpl. repeat split; auto.
  - simpl Common.for_each.
    set (w1 := say ("Removed leftover " +:+ "texture" +:+ " '" +:+ image_name x +:+ "'")
                 (set_images l w)).
    destruct (IH w1 eq_refl) as (w' & Hrun & H1 & H2 & H3 & H4 & H5 & H6).
    exists w'. split.
    + unfold bind at 1. unfold bind at 1.
      unfold CommonRest.collection_subscript at 1. rewrite Hw. simpl.
      rewrite String.eqb_refl.
      unfold bind at 1. unfold CommonRest.collection_remove, modify, print. simpl.
      rewrite Hw. simpl. exact Hrun.
    + repeat split; auto. rewrite H6. subst w1. simpl. rewrite length_app. simpl. lia.
Qed.

(** X18: [_ClearOldTextureData] always ends normally with an empty image
    collection: each name taken from [keys()] finds an image to remove, so
    the subscript never raises [KeyError].  It touches nothing but the
    images and the console, and prints nothing when there is nothing to
    remove. *)
Theorem ClearOldTextureData_empties (w : World) :
  exists w',
    CommonRest._ClearOldTextureData w = (Ok tt, w') /\
    w_images w' = [] /\ w_fs w' = w_fs w /\ w_arm w' = w_arm w /\
    w_mode w' = w_mode w /\ w_calls w' = w_calls w /\
    match w_images w with
    | [] => w' = w
    | _ :: _ => length (w_stdout w') = (length (w_stdout w) + length (w_images w) + 2)%nat
    end.
Proof.
  unfold CommonRest._ClearOldTextureData, CommonRest._ClearCachedCollectionData.
  unfold bind at 1. unfold gets at 1. rewrite keys_loop_map, app_nil_l.
  destruct (w_images w) as [|x l] eqn:E.
  - exists w. simpl. unfold ret. repeat split; auto.
  - replace (0 <? length (map image_name (x :: l)))%nat with true by reflexivity.
    set (m := "Found " +:+ _).
    destruct (ClearOldTextureData_loop (x :: l) (say m w) E)
      as (w1 & Hrun & H1 & H2 & H3 & H4 & H5 & H6).
    exists (say "Removed all leftover textures" w1). split.
    + unfold bind at 1. unfold print at 1, modify at 1.
      unfold bind at 1. rewrite Hrun. reflexivity.
    + simpl. repeat split; auto. rewrite length_app, H6. simpl.
      rewrite length_app. simpl. lia.
Qed.

(** ** More on the stored settings *)

Lemma GetFbxExportProperty_run (optionsFileDir property : string) (w : World) :
  Common.GetFbxExportProperty optionsFileDir property w
  = (match nodes (w_fs w) !! PosixPath.join optionsFileDir Common.ConfigJson with
     | None => Ok ""
     | Some (JsonFile d) =>
         if bool_decide (d <> ∅) then
           match d !! property with
           | Some v => Ok v
           | None => Raise (KeyError property)
           end
         else Ok ""
     | Some DataFile => Raise JSONDecodeError
     | Some Dir => Raise (OSError (PosixPath.join optionsFileDir Common.ConfigJson))
     end, w).
Proof.
  unfold Common.GetFbxExportProperty, Common.GetFbxExportPropertiesObj.
  set (filename := PosixPath.join _ _).
  unfold bind, Host.path_exists, gets, Host.open_json_load, ret, raise, Common.truthy.
  destruct (nodes (w_fs w) !! filename) as [[|d|]|] eqn:E; simpl; rewrite ?E; simpl;
    try reflexivity.
  destruct (bool_decide (d <> ∅)); [|reflexivity]. now destruct (d !! property).
Qed.

(** X19: [GetFbxExportProperty] only reads.  A directory without
    configuration file gives the empty string, and so does a file holding
    an empty dictionary; but a file whose dictionary has other keys and not
    the one asked for makes it raise [KeyError] instead. *)
Theorem GetFbxExportProperty_missing (optionsFileDir property : string) (w : World) :
  let filename := PosixPath.join optionsFileDir Common.ConfigJson in
  let run := Common.GetFbxExportProperty optionsFileDir property w in
  snd run = w /\
  (nodes (w_fs w) !! filename = None -> fst run = Ok "") /\
  (nodes (w_fs w) !! filename = Some (JsonFile ∅) -> fst run = Ok "") /\
  (forall d : gmap string string,
      nodes (w_fs w) !! filename = Some (JsonFile d) ->
      d <> ∅ -> d !! property = None -> fst run = Raise (KeyError property)) /\
  (forall (d : gmap string string) (v : string),
      nodes (w_fs w) !! filename = Some (JsonFile d) ->
      d !! property = Some v -> fst run = Ok v).
Proof.
  intros filename run. subst run. rewrite GetFbxExportProperty_run. fold filename.
  simpl fst. simpl snd. split; [reflexivity|].
  split; [now intros ->|]. split; [now intros ->|]. split.
  - intros d -> Hd Hp. rewrite bool_decide_eq_true_2 by assumption. now rewrite Hp.
  - intros d v -> Hp. rewrite bool_decide_eq_true_2; [now rewrite Hp|].
    intros ->. rewrite lookup_empty in Hp. discriminate.
Qed.

Lemma GetFbxExportProperty_missing_witness :
  fst (Common.GetFbxExportProperty "elsewhere" "hipBoneName" Samples.configured_scene)
  = Ok "" /\
  fst (Common.GetFbxExportProperty "proj" "rootBoneName" Samples.configured_scene)
  = Raise (KeyError "rootBoneName").
Proof.
  split.
  - apply (proj1 (proj2 (GetFbxExportProperty_missing "elsewhere" "hipBoneName"
                           Samples.configured_scene))).
    reflexivity.
  - apply (proj1 (proj2 (proj2 (proj2 (GetFbxExportProperty_missing "proj" "rootBoneName"
                                         Samples.configured_scene))))
             {[ "hipBoneName" := "Hips" ]}).
    + reflexivity.
    + apply map_non_empty_singleton.
    + reflexivity.
Defined.

(** X20: [StoreFbxExportProperty] writes one file and nothing else: every
    other path of the file system, the scene and the console stay as they
    were, so the settings stored for another directory read as before; and
    where the file cannot be written it raises [OSError] and changes
    nothing. *)
Theorem StoreFbxExportProperty_touches_one_file
    (optionsFileDir property value : string) (w : World) :
  let filename := PosixPath.join optionsFileDir Common.ConfigJson in
  let run := Common.StoreFbxExportProperty optionsFileDir property value w in
  (Resolution.writable filename w = false -> run = (Raise (OSError filename), w)) /\
  (forall other : string,
      other <> filename -> nodes (w_fs (snd run)) !! other = nodes (w_fs w) !! other) /\
  w_images (snd run) = w_images w /\ w_arm (snd run) = w_arm w /\
  w_mode (snd run) = w_mode w /\ w_calls (snd run) = w_calls w /\
  w_stdout (snd run) = w_stdout w /\
  (forall otherDir q : string,
      PosixPath.join otherDir Common.ConfigJson <> filename ->
      fst (Common.GetFbxExportProperty otherDir q (snd run))
      = fst (Common.GetFbxExportProperty otherDir q w)).
Proof.
  intros filename run. subst run.
  unfold Common.StoreFbxExportProperty, Host.open_json_dump, Resolution.writable.
  fold filename.
  destruct (bool_decide (filename ∈ refused (w_fs w))) eqn:E; simpl.
  - repeat split; auto.
  - split; [discriminate|]. split; [intros other Ho; now apply lookup_insert_ne|].
    repeat split; auto.
    intros otherDir q Ho. rewrite !GetFbxExportProperty_run. simpl.
    now rewrite lookup_insert_ne by congruence.
Qed.

Lemma StoreFbxExportProperty_touches_one_file_witness :
  fst (Common.GetFbxExportProperty "proj" "hipBoneName"
         (snd (Common.StoreFbxExportProperty "other" "hipBoneName" "mixamorig:Hips"
                 Samples.configured_scene)))
  = Ok "Hips".
Proof.
  rewrite (proj2 (proj2 (proj2 (proj2 (proj2 (proj2 (proj2
             (StoreFbxExportProperty_touches_one_file "other" "hipBoneName"
                "mixamorig:Hips" Samples.configured_scene)))))))
             "proj" "hipBoneName" ltac:(discriminate)).
  reflexivity.
Defined.


(** ** Runs of [Convert] that export *)

Lemma GetOutputFilename_total (isActor : bool)
    (fbxFilename fbxOutputPath : option string) (appendActorOrMotionPath : bool) (w : World) :
  exists (o : option string) (w' : World),
    Main._GetOutputFilename isActor fbxFilename fbxOutputPath appendActorOrMotionPath w
    = (Ok o, w') /\ w_calls w' = w_calls w.
Proof.
  destruct (String.eqb (Main.strip_or_empty fbxFilename) "") eqn:E.
  - exists None, w. unfold Main._GetOutputFilename. now rewrite E.
  - apply String.eqb_neq in E. rewrite (GetOutputFilename_cases _ _ _ _ _ E).
    destruct (Resolution.dir_exists _ w); [eauto|].
    destruct (Resolution.dir_refused _ w); eauto.
Qed.

(** When path resolution answers a path, [Convert] is the conversion
    followed by the export. *)
Lemma drive_Convert_with_output
    (ProcessActor : string -> Gen unit)
    (ProcessMotion : string -> string -> Q -> bool -> Gen unit)
    (hipBoneName rootBoneName : option string) (animationSampleRate : Q)
    (fbxFilename fbxOutputPath : option string)
    (appendActorOrMotionPath dumpCSVs : bool) (w w3 : World) (p : string) :
  let isActor := Main._CheckArmatureContainsMesh_loop (children (w_arm w)) in
  Main._GetOutputFilename isActor fbxFilename fbxOutputPath appendActorOrMotionPath
    (Outcome.before_resolution w) = (Ok (Some p), w3) ->
  drive (Main.Convert ProcessActor ProcessMotion hipBoneName rootBoneName
           animationSampleRate fbxFilename fbxOutputPath appendActorOrMotionPath dumpCSVs) w
  = Exported.conversion_then_export
      (Outcome.conversion_iterator ProcessActor ProcessMotion hipBoneName rootBoneName
         animationSampleRate dumpCSVs isActor) isActor p w3.
Proof.
  intros isActor H. unfold Outcome.before_resolution in H. fold isActor in H.
  unfold Main.Convert.
  rewrite drive_gbind, drive_yield_status. cbn [drive_then].
  rewrite drive_gbind.
  rewrite (drive_lift Main._CheckArmatureContainsMesh (say "starting Convert" w)
             (say "starting Convert" w) (Ok isActor)) by reflexivity.
  cbn [drive_then].
  rewrite drive_gbind, drive_yield_status. cbn [drive_then].
  rewrite drive_gbind.
  rewrite (drive_lift _ _ _ _ H). cbn [drive_then].
  rewrite drive_gbind, drive_yield_status. cbn [drive_then].
  rewrite drive_gbind.
  unfold Exported.conversion_then_export, Outcome.relay, Outcome.conversion_iterator,
    Outcome.name_or.
  destruct (drive (for_in _ _) _) as [[ys [[]|e]] w5]; cbn [drive_then]; [|reflexivity].
  rewrite drive_gbind, drive_yield_status. cbn [drive_then].
  rewrite drive_gbind, drive_gbind.
  destruct (Main._ExportFbx p (say "Completed Asset Conversion." w5)) as [[[]|e] w7] eqn:Ex.
  - rewrite (drive_lift _ _ _ _ Ex). cbn [drive_then].
    rewrite drive_yield_status. cbn [drive_then drive prepend].
    unfold Exported.completed, Exported.exported. simpl. reflexivity.
  - rewrite (drive_lift _ _ _ _ Ex). cbn [drive_then prepend]. simpl.
    unfold Exported.completed. reflexivity.
Qed.

(** X21: with a file name that is not blank and an output directory that
    is there or can be made, a run of [Convert] is the conversion followed by
    the export to the resolved path.  When the conversion completes and the
    file can be written, the run ends with the events of completion and of
    export, returns [1], and has called the exporter once, after everything
    else, with the [path_mode='COPY'] option. *)
Theorem Convert_exports_after_conversion
    (ProcessActor : string -> Gen unit)
    (ProcessMotion : string -> string -> Q -> bool -> Gen unit)
    (hipBoneName rootBoneName : option string) (animationSampleRate : Q)
    (fbxFilename fbxOutputPath : option string)
    (appendActorOrMotionPath dumpCSVs : bool) (w : World) :
  let isActor := Main._CheckArmatureContainsMesh_loop (children (w_arm w)) in
  let dir := Resolution.output_dir isActor fbxOutputPath appendActorOrMotionPath in
  let p := PosixPath.join dir (Resolution.fbx_name (Main.strip_or_empty fbxFilename)) in
  let w3 := snd (Main._GetOutputFilename isActor fbxFilename fbxOutputPath
                   appendActorOrMotionPath (Outcome.before_resolution w)) in
  let it := Outcome.conversion_iterator ProcessActor ProcessMotion hipBoneName
              rootBoneName animationSampleRate dumpCSVs isActor in
  let run := drive (Main.Convert ProcessActor ProcessMotion hipBoneName rootBoneName
                      animationSampleRate fbxFilename fbxOutputPath
                      appendActorOrMotionPath dumpCSVs) w in
  Main.strip_or_empty fbxFilename <> "" ->
  Resolution.available dir w = true ->
  run = Exported.conversion_then_export it isActor p w3 /\
  forall (ys : list Status) (w5 : World),
    drive (Outcome.relay it) (say "Processed output path strings" w3) = (ys, Ok tt, w5) ->
    Resolution.writable p w5 = true ->
    fst run = (Outcome.opening isActor ++ ys ++ [Exported.completed; Exported.exported],
               Ok 1) /\
    w_calls (snd run) = w_calls w5 ++ [ExportSceneFbx p true].
Proof.
  intros isActor dir p w3 it run Hf Hav.
  assert (Hav' : Resolution.available dir (Outcome.before_resolution w) = true) by exact Hav.
  destruct (GetOutputFilename_available isActor fbxFilename fbxOutputPath
              appendActorOrMotionPath (Outcome.before_resolution w) Hf Hav') as (H1 & _).
  fold dir in H1. fold p in H1.
  assert (H : Main._GetOutputFilename isActor fbxFilename fbxOutputPath
                appendActorOrMotionPath (Outcome.before_resolution w) = (Ok (Some p), w3)).
  { subst w3. destruct (Main._GetOutputFilename _ _ _ _ _) as [r w']. simpl in *.
    now subst r. }
  assert (Hrun : run = Exported.conversion_then_export it isActor p w3).
  { apply drive_Convert_with_output. exact H. }
  split; [exact Hrun|].
  intros ys w5 Hd Hw. rewrite Hrun. unfold Exported.conversion_then_export. rewrite Hd.
  unfold Resolution.writable in Hw. apply negb_true_iff in Hw.
  unfold Main._ExportFbx, Host.export_scene_fbx, Host.write_data, bind, print, modify.
  simpl. rewrite Hw. simpl. split; reflexivity.
Qed.

Lemma Convert_exports_after_conversion_witness :
  fst (drive (Main.Convert Samples.ProcessActor_two_steps Samples.ProcessMotion_two_steps
                None None 60 (Some "anim") (Some "out") true false) Samples.motion_scene)
  = ([mkStatus "starting Convert" "default";
      mkStatus "Checked Asset Type. isActor=False" "default";
      mkStatus "Processed output path strings" "default";
      mkStatus "added root" "default";
      mkStatus "baked Hips" "default";
      mkStatus "Completed Asset Conversion." "default";
      mkStatus "FBX Assert exported." "default"], Ok 1) /\
  w_calls (snd (drive (Main.Convert Samples.ProcessActor_two_steps
                         Samples.ProcessMotion_two_steps
                         None None 60 (Some "anim") (Some "out") true false)
                  Samples.motion_scene))
  = [ExportSceneFbx "out/Motions/anim.fbx" true].
Proof.
  destruct (Convert_exports_after_conversion
              Samples.ProcessActor_two_steps Samples.ProcessMotion_two_steps
              None None 60 (Some "anim") (Some "out") true false Samples.motion_scene
              ltac:(discriminate) ltac:(reflexivity)) as (_ & H).
  destruct (H _ _ ltac:(reflexivity) ltac:(reflexivity)) as (H1 & H2).
  split; [exact H1 | exact H2].
Defined.

(** X22: an exception of the conversion is fatal to [Convert] and comes
    before the export: the run ends with that exception right after the
    events relayed so far, in the world the conversion left, so the exporter
    is not called although a path had been resolved (and its directory
    possibly made). *)
Theorem Convert_conversion_failure_skips_export
    (ProcessActor : string -> Gen unit)
    (ProcessMotion : string -> string -> Q -> bool -> Gen unit)
    (hipBoneName rootBoneName : option string) (animationSampleRate : Q)
    (fbxFilename fbxOutputPath : option string)
    (appendActorOrMotionPath dumpCSVs : bool) (w : World)
    (ys : list Status) (e : PyExc) (w5 : World) :
  let isActor := Main._CheckArmatureContainsMesh_loop (children (w_arm w)) in
  let w3 := snd (Main._GetOutputFilename isActor fbxFilename fbxOutputPath
                   appendActorOrMotionPath (Outcome.before_resolution w)) in
  let it := Outcome.conversion_iterator ProcessActor ProcessMotion hipBoneName
              rootBoneName animationSampleRate dumpCSVs isActor in
  drive (Outcome.relay it) (say "Processed output path strings" w3) = (ys, Raise e, w5) ->
  drive (Main.Convert ProcessActor ProcessMotion hipBoneName rootBoneName
           animationSampleRate fbxFilename fbxOutputPath appendActorOrMotionPath dumpCSVs) w
  = (Outcome.opening isActor ++ ys, Raise e, w5).
Proof.
  intros isActor w3 it Hd.
  destruct (GetOutputFilename_total isActor fbxFilename fbxOutputPath
              appendActorOrMotionPath (Outcome.before_resolution w)) as (o & w3' & H & _).
  assert (w3 = w3') as <- by (subst w3; now rewrite H).
  destruct o as [p|].
  - rewrite (drive_Convert_with_output _ _ _ _ _ _ _ _ _ _ _ _ H).
    unfold Exported.conversion_then_export. fold isActor. fold it. now rewrite Hd.
  - rewrite (drive_Convert_no_output _ _ _ _ _ _ _ _ _ _ _ H).
    unfold Outcome.conversion_only. fold isActor. fold it. now rewrite Hd.
Qed.

Lemma Convert_conversion_failure_skips_export_witness :
  fst (drive (Main.Convert Samples.ProcessActor_two_steps MoreSamples.ProcessMotion_failing
                None None 60 (Some "anim") (Some "out") true false) Samples.motion_scene)
  = ([mkStatus "starting Convert" "default";
      mkStatus "Checked Asset Type. isActor=False" "default";
      mkStatus "Processed output path strings" "default";
      mkStatus "added root" "default"], Raise (Exception_ "no animation data")) /\
  w_calls (snd (drive (Main.Convert Samples.ProcessActor_two_steps
                         MoreSamples.ProcessMotion_failing
                         None None 60 (Some "anim") (Some "out") true false)
                  Samples.motion_scene)) = [].
Proof.
  rewrite (Convert_conversion_failure_skips_export
             Samples.ProcessActor_two_steps MoreSamples.ProcessMotion_failing
             None None 60 (Some "anim") (Some "out") true false Samples.motion_scene
             [mkStatus "added root" "default"] (Exception_ "no animation data") _
             ltac:(reflexivity)).
  split; reflexivity.
Defined.

Lemma relay_default_type (it : Gen unit) (w : World) :
  Forall (fun s => status_type s = "default") (fst (fst (drive (Outcome.relay it) w))).
Proof.
  unfold Outcome.relay. revert w.
  induction it as [r | s k IH | X m k IH]; intros w; cbn [for_in].
  - constructor.
  - rewrite drive_gbind, drive_yield_status. cbn [drive_then].
    specialize (IH (say (Common.Status_str s) w)).
    destruct (drive (for_in k _) _) as [[ys r] w']. simpl in *. now constructor.
  - cbn [drive]. destruct (m w) as [[x|e] w']; [apply IH | constructor].
Qed.

Ltac default_events Hr :=
  simpl; repeat (constructor; [reflexivity|]);
  first [exact Hr | apply Forall_app; split; [exact Hr | repeat constructor]].

(** X23: every event a run of [Convert] yields has the status type
    ['default']: the events of the conversion generators are not passed on
    as they are but rebuilt from their text, which drops their type. *)
Theorem Convert_events_have_default_type
    (ProcessActor : string -> Gen unit)
    (ProcessMotion : string -> string -> Q -> bool -> Gen unit)
    (hipBoneName rootBoneName : option string) (animationSampleRate : Q)
    (fbxFilename fbxOutputPath : option string)
    (appendActorOrMotionPath dumpCSVs : bool) (w : World) :
  Forall (fun s => status_type s = "default")
    (fst (fst (drive (Main.Convert ProcessActor ProcessMotion hipBoneName rootBoneName
                        animationSampleRate fbxFilename fbxOutputPath
                        appendActorOrMotionPath dumpCSVs) w))).
Proof.
  set (isActor := Main._CheckArmatureContainsMesh_loop (children (w_arm w))).
  destruct (GetOutputFilename_total isActor fbxFilename fbxOutputPath
              appendActorOrMotionPath (Outcome.before_resolution w)) as (o & w3 & H & _).
  destruct o as [p|].
  - rewrite (drive_Convert_with_output _ _ _ _ _ _ _ _ _ _ _ _ H).
    unfold Exported.conversion_then_export. fold isActor.
    match goal with |- context [drive (Outcome.relay ?it) ?w0] =>
      pose proof (relay_default_type it w0) as Hr;
      destruct (drive (Outcome.relay it) w0) as [[ys [[]|e]] w5] end; simpl in Hr.
    + destruct (Main._ExportFbx _ _) as [[[]|e] w7]; default_events Hr.
    + default_events Hr.
  - rewrite (drive_Convert_no_output _ _ _ _ _ _ _ _ _ _ _ H).
    unfold Outcome.conversion_only. fold isActor.
    match goal with |- context [drive (Outcome.relay ?it) ?w0] =>
      pose proof (relay_default_type it w0) as Hr;
      destruct (drive (Outcome.relay it) w0) as [[ys [[]|e]] w5] end; simpl in Hr;
      default_events Hr.
Qed.

(** ** Pulling [Convert] *)

Lemma next_gbind {A B} (g : Gen A) (f : A -> Gen B) (w : World) :
  Pull.next (gbind g f) w
  = match Pull.next g w with
    | (Pull.Event s k, w') => (Pull.Event s (gbind k f), w')
    | (Pull.Finished (Ok a), w') => Pull.next (f a) w'
    | (Pull.Finished (Raise e), w') => (Pull.Finished (Raise e), w')
    end.
Proof.
  revert w. induction g as [a | s k IH | X m k IH]; intros w; simpl; try reflexivity.
  destruct (m w) as [[x|e] w']; [apply IH | reflexivity].
Qed.

(** Pulling event after event to the end is driving. *)
Lemma drive_next {R} (g : Gen R) (w : World) :
  drive g w
  = match Pull.next g w with
    | (Pull.Event s k, w') => prepend [s] (drive k w')
    | (Pull.Finished r, w') => ([], r, w')
    end.
Proof.
  revert w. induction g as [a | s k IH | X m k IH]; intros w; simpl.
  - reflexivity.
  - now destruct (drive k w) as [[ys r] w'].
  - destruct (m w) as [[x|e] w']; [apply IH | reflexivity].
Qed.

Lemma next_yield_status (m : string) (w : World) :
  Pull.next (Main.yield_status m) w = (Pull.Event (mkStatus m "default") (GRet tt), say m w).
Proof. reflexivity. Qed.

Lemma next_lift {A} (m : M A) (w w' : World) (r : Res A) :
  m w = (r, w') -> Pull.next (lift m) w = (Pull.Finished r, w').
Proof. intros H. simpl. rewrite H. now destruct r. Qed.

Lemma next_ret_bind {A B} (a : A) (f : A -> Gen B) (w : World) :
  Pull.next (gbind (GRet a) f) w = Pull.next (f a) w.
Proof. reflexivity. Qed.

(** X24: [Convert] works one stage for each event pulled.  The first two
    events come without the file system being touched; the output path is
    resolved, and its directory made, only when the third event is pulled,
    so a caller that stops after two events has created nothing. *)
Theorem Convert_resolves_path_on_third_pull
    (ProcessActor : string -> Gen unit)
    (ProcessMotion : string -> string -> Q -> bool -> Gen unit)
    (hipBoneName rootBoneName : option string) (animationSampleRate : Q)
    (fbxFilename fbxOutputPath : option string)
    (appendActorOrMotionPath dumpCSVs : bool) (w : World) :
  let isActor := Main._CheckArmatureContainsMesh_loop (children (w_arm w)) in
  let w1 := say "starting Convert" w in
  let w2 := Outcome.before_resolution w in
  let w3 := snd (Main._GetOutputFilename isActor fbxFilename fbxOutputPath
                   appendActorOrMotionPath w2) in
  exists k1 k2 k3 : Gen Z,
    Pull.next (Main.Convert ProcessActor ProcessMotion hipBoneName rootBoneName
                 animationSampleRate fbxFilename fbxOutputPath
                 appendActorOrMotionPath dumpCSVs) w
    = (Pull.Event (mkStatus "starting Convert" "default") k1, w1) /\
    Pull.next k1 w1
    = (Pull.Event (mkStatus ("Checked Asset Type. isActor=" +:+ PyStr.str_of_bool isActor)
                     "default") k2, w2) /\
    w_fs w2 = w_fs w /\
    Pull.next k2 w2
    = (Pull.Event (mkStatus "Processed output path strings" "default") k3,
       say "Processed output path strings" w3).
Proof.
  intros isActor w1 w2 w3. subst w3 w2 w1. unfold Outcome.before_resolution. fold isActor.
  destruct (GetOutputFilename_total isActor fbxFilename fbxOutputPath
              appendActorOrMotionPath
              (say ("Checked Asset Type. isActor=" +:+ PyStr.str_of_bool isActor)
                 (say "starting Convert" w))) as (o & w3 & H & _).
  rewrite H. simpl snd. unfold Main.Convert.
  match goal with |- context [Pull.next (gbind (Main.yield_status _) ?f1) w] =>
    exists (f1 tt) end.
  eexists. eexists. split; [|split; [|split]].
  - rewrite next_gbind, next_yield_status. reflexivity.
  - cbv beta. rewrite next_gbind.
    rewrite (next_lift Main._CheckArmatureContainsMesh (say "starting Convert" w)
               (say "starting Convert" w) (Ok isActor)) by reflexivity.
    cbv beta iota. rewrite next_gbind, next_yield_status. reflexivity.
  - reflexivity.
  - rewrite next_ret_bind. cbv beta. rewrite next_gbind.
    rewrite (next_lift _ _ _ _ H). cbv beta iota.
    rewrite next_gbind, next_yield_status. reflexivity.
Qed.

(** ** Which conversion [Convert] runs *)

Lemma rstrip_empty (s : string) : PyStr.rstrip s = "" -> PyStr.all_space s = true.
Proof.
  induction s as [|a s IH]; simpl; [reflexivity|].
  destruct (PyStr.rstrip s) eqn:E; [|discriminate].
  destruct (PyStr.isspace a); [intros _; now apply IH | discriminate].
Qed.

Lemma lstrip_head (s : string) :
  PyStr.lstrip s = "" \/ exists a t, PyStr.lstrip s = String a t /\ PyStr.isspace a = false.
Proof.
  induction s as [|a s IH]; simpl; [now left|].
  destruct (PyStr.isspace a) eqn:E; [exact IH | right; eauto].
Qed.

Lemma lstrip_empty (s : string) : PyStr.lstrip s = "" -> PyStr.all_space s = true.
Proof.
  induction s as [|a s IH]; simpl; [reflexivity|].
  destruct (PyStr.isspace a); [exact IH | discriminate].
Qed.

(** A string strips to nothing exactly when it is white space only. *)
Lemma strip_empty_iff (s : string) : PyStr.strip s = "" <-> PyStr.all_space s = true.
Proof.
  split; [|apply strip_all_space].
  unfold PyStr.strip. intros H. apply lstrip_empty.
  destruct (lstrip_head s) as [E | (a & t & E & Ha)]; [exact E|].
  rewrite E in H. apply rstrip_empty in H. simpl in H. rewrite Ha in H. discriminate.
Qed.

Lemma name_or_blank (x : option string) (default : string) :
  Outcome.name_or x default
  = if Resolution.blank x then default else Main.strip_or_empty x.
Proof.
  unfold Outcome.name_or.
  destruct (Resolution.blank x) eqn:B.
  - now rewrite (blank_strip _ B).
  - destruct (String.eqb (Main.strip_or_empty x) "") eqn:E; [|reflexivity].
    apply String.eqb_eq in E. destruct x as [s|]; simpl in *; [|discriminate].
    apply strip_empty_iff in E. congruence.
Qed.

(** X25: every run of [Convert] is one of two: the conversion alone when
    path resolution answers [None], the conversion followed by the export
    when it answers a path.  The conversion is [ProcessActor] on the root
    bone name when the armature has a mesh child and [ProcessMotion] on
    both names, the sample rate and the dump flag when it has none, the
    names being stripped, and ["Hips"] and ["root"] standing in for a name
    that is [None], empty or white space only. *)
Theorem Convert_dispatches_on_classification
    (ProcessActor : string -> Gen unit)
    (ProcessMotion : string -> string -> Q -> bool -> Gen unit)
    (hipBoneName rootBoneName : option string) (animationSampleRate : Q)
    (fbxFilename fbxOutputPath : option string)
    (appendActorOrMotionPath dumpCSVs : bool) (w : World) :
  let isActor := Main._CheckArmatureContainsMesh_loop (children (w_arm w)) in
  let hip := if Resolution.blank hipBoneName then "Hips"
             else Main.strip_or_empty hipBoneName in
  let root := if Resolution.blank rootBoneName then "root"
              else Main.strip_or_empty rootBoneName in
  let it := if isActor then ProcessActor root
            else ProcessMotion hip root animationSampleRate dumpCSVs in
  exists (o : option string) (w3 : World),
    Main._GetOutputFilename isActor fbxFilename fbxOutputPath appendActorOrMotionPath
      (Outcome.before_resolution w) = (Ok o, w3) /\
    drive (Main.Convert ProcessActor ProcessMotion hipBoneName rootBoneName
             animationSampleRate fbxFilename fbxOutputPath appendActorOrMotionPath dumpCSVs) w
    = match o with
      | Some p => Exported.conversion_then_export it isActor p w3
      | None => Outcome.conversion_only it isActor w3
      end.
Proof.
  intros isActor hip root it.
  destruct (GetOutputFilename_total isActor fbxFilename fbxOutputPath
              appendActorOrMotionPath (Outcome.before_resolution w)) as (o & w3 & H & _).
  exists o, w3. split; [exact H|].
  assert (Hit : Outcome.conversion_iterator ProcessActor ProcessMotion hipBoneName
                  rootBoneName animationSampleRate dumpCSVs isActor = it).
  { unfold Outcome.conversion_iterator. now rewrite !name_or_blank. }
  rewrite <- Hit. destruct o as [p|].
  - now apply drive_Convert_with_output.
  - now apply drive_Convert_no_output.
Qed.

(** ** Reparenting, then looking the bone up *)

Lemma GetPoseBoneFromArmature_loop_by_name (l : list Bone) (boneName : string) :
  CommonRest.GetPoseBoneFromArmature_loop l boneName = Host.by_name l boneName.
Proof.
  unfold Host.by_name. induction l as [|b l IH]; simpl; [reflexivity|].
  now destruct (String.eqb (bone_name b) boneName).
Qed.

Lemma GetPoseBoneFromArmature_run (boneName : string) (w : World) :
  CommonRest.GetPoseBoneFromArmature boneName w
  = (Ok (CommonRest.GetPoseBoneFromArmature_loop
           (bones (w_arm (snd (Host.mode_set POSE w)))) boneName),
     snd (Host.mode_set POSE w)).
Proof. reflexivity. Qed.

(** X26: after [MakeParentBone] has put the bone named [childBoneName]
    under the bone named [parentBoneName], [GetPoseBoneFromArmature] on the
    child's name returns that bone with its new parent: the change made in
    edit mode is there in pose mode. *)
Theorem reparented_bone_seen_in_pose_mode
    (parentBoneName childBoneName : string) (w : World) (pb cb : Bone) :
  let l := Rig.entered w in
  Host.by_name l parentBoneName = Some pb ->
  Host.by_name l childBoneName = Some cb ->
  Host.is_self_or_ancestor (length l) l childBoneName pb = false ->
  fst (CommonRest.GetPoseBoneFromArmature childBoneName
         (snd (Common.MakeParentBone parentBoneName childBoneName w)))
  = Ok (Some (mkBone childBoneName (Some parentBoneName) (bone_tail cb))).
Proof.
  intros l Hp Hc Hcycle.
  pose proof (find_from_by_name parentBoneName l 0) as Fp. rewrite Hp in Fp.
  destruct Fp as (jp & Fp & Lp & Np & _).
  pose proof (find_from_by_name childBoneName l 0) as Fc. rewrite Hc in Fc.
  destruct Fc as (jc & Fc & Lc & Nc & Tc).
  assert (Sp : Host.subscript l (Host.find parentBoneName l) = Ok (jp, pb)).
  { unfold Host.find. rewrite Fp. simpl. now apply subscript_nat. }
  assert (Sc : Host.subscript l (Host.find childBoneName l) = Ok (jc, cb)).
  { unfold Host.find. rewrite Fc. simpl. now apply subscript_nat. }
  destruct (MakeParentBone_run parentBoneName childBoneName w jp jc pb cb Sp Sc)
    as (w' & Hr & Hm & Hb).
  fold l in Hb. rewrite Nc, Np, Hcycle in Hb.
  rewrite Hr. simpl snd.
  assert (Hbones : bones (w_arm (snd (Host.mode_set POSE w'))) = bones (w_arm w')).
  { unfold Host.mode_set, modify. simpl. now rewrite Hm. }
  rewrite GetPoseBoneFromArmature_run. cbn [fst]. rewrite Hbones, Hb.
  rewrite GetPoseBoneFromArmature_loop_by_name. f_equal. f_equal.
  pose proof (lookup_lt_Some _ _ _ Lc) as Hlt.
  rewrite <- (take_drop_middle l jc cb Lc) at 1.
  rewrite insert_app_r_alt by (rewrite length_take; lia).
  rewrite length_take. replace (jc - jc `min` length l)%nat with 0%nat by lia.
  simpl. unfold Host.by_name in *.
  clear -Tc. induction (take jc l) as [|x t IH]; simpl in *.
  - now rewrite String.eqb_refl.
  - destruct (String.eqb (bone_name x) childBoneName); [discriminate | now apply IH].
Qed.

Lemma reparented_bone_seen_in_pose_mode_witness :
  fst (CommonRest.GetPoseBoneFromArmature "Hips"
         (snd (Common.MakeParentBone "root" "Hips" Samples.rig_root_last)))
  = Ok (Some (mkBone "Hips" (Some "root") Samples.origin)).
Proof.
  exact (reparented_bone_seen_in_pose_mode "root" "Hips" Samples.rig_root_last
           (mkBone "root" None Samples.origin) (mkBone "Hips" None Samples.origin)
           ltac:(reflexivity) ltac:(reflexivity) ltac:(reflexivity)).
Defined.


